(** * tsig: the TKEY exchange of [tsig.go]

    A shallow embedding of [ExchangeTKEY] (package [tsig]) and the
    properties of its request builder, signer, failover loop and
    response validator.

    Go values are modelled as follows.
    - [uint16], [uint32], [uint64], [int] and [int64] are [Z]; every
      conversion that truncates in Go is written out with [mod].
    - [string] is [String.string] (a sequence of bytes), [[]byte] is
      [list Byte.byte].
    - [map[string]T] is [gmap string T]; a nil map is the empty map.
    - [*dns.Msg] is a location in a store of messages, so that two
      variables holding the same pointer share one message.
    - The collaborators (clock, transaction-id source, resolver,
      transport and the tables of the dns package) are the fields of
      an environment [Env]; every call to one of them is logged. *)

From Stdlib Require Import ZArith Ascii String List Lia.
From Stdlib.Strings Require Import Byte.
From stdpp Require Import base option list strings pretty gmap fin_maps.

Open Scope string_scope.
Open Scope list_scope.
Open Scope Z_scope.

(** ** Constants of the package and of the dns library *)

(** [GSS] is the RFC 3645 defined algorithm name. *)
Definition GSS : string := "gss-tsig.".

(** The [iota] block: 0 is reserved (RFC 2930, section 2.5). *)
Definition TkeyModeServer   : Z := 1.
Definition TkeyModeDH       : Z := 2.
Definition TkeyModeGSS      : Z := 3.
Definition TkeyModeResolver : Z := 4.
Definition TkeyModeDelete   : Z := 5.

Definition TypeTKEY     : Z := 249.
Definition TypeTSIG     : Z := 250.
Definition ClassANY     : Z := 255.
Definition RcodeSuccess : Z := 0.

(** Truncating integer conversions. *)
Definition uint16 (z : Z) : Z := z mod 2 ^ 16.
Definition uint32 (z : Z) : Z := z mod 2 ^ 32.
Definition uint64 (z : Z) : Z := z mod 2 ^ 64.

(** ** Records of the dns library *)

Record RR_Header := mkRR_Header {
  Hdr_Name     : string;
  Hdr_Rrtype   : Z;
  Hdr_Class    : Z;
  Hdr_Ttl      : Z;
  Hdr_Rdlength : Z
}.

Record TKEY := mkTKEY {
  TKEY_Hdr        : RR_Header;
  TKEY_Algorithm  : string;
  TKEY_Inception  : Z;
  TKEY_Expiration : Z;
  TKEY_Mode       : Z;
  TKEY_Error      : Z;
  TKEY_KeySize    : Z;
  TKEY_Key        : string;
  TKEY_OtherLen   : Z;
  TKEY_OtherData  : string
}.

Record TSIG := mkTSIG {
  TSIG_Hdr        : RR_Header;
  TSIG_Algorithm  : string;
  TSIG_TimeSigned : Z;
  TSIG_Fudge      : Z;
  TSIG_MACSize    : Z;
  TSIG_MAC        : string;
  TSIG_OrigId     : Z;
  TSIG_Error      : Z;
  TSIG_OtherLen   : Z;
  TSIG_OtherData  : string
}.

(** A value of the interface type [dns.RR]: nil, a [*dns.TKEY], a
    [*dns.TSIG], or a record of any other concrete type (its header
    and its data kept opaque). *)
Inductive RR :=
| RR_nil
| RR_TKEY (t : TKEY)
| RR_TSIG (t : TSIG)
| RR_Other (hdr : RR_Header) (rdata : string).

Record Question := mkQuestion {
  Q_Name   : string;
  Q_Qtype  : Z;
  Q_Qclass : Z
}.

(** [dns.Msg]; of the header only the fields the routine reads or
    writes are kept, the remaining flags stay at their zero value. *)
Record Msg := mkMsg {
  Msg_Id               : Z;
  Msg_RecursionDesired : bool;
  Msg_Rcode            : Z;
  Msg_Question         : list Question;
  Msg_Answer           : list RR;
  Msg_Ns               : list RR;
  Msg_Extra            : list RR
}.

Definition set_Id (id : Z) (m : Msg) : Msg :=
  mkMsg id (Msg_RecursionDesired m) (Msg_Rcode m) (Msg_Question m)
        (Msg_Answer m) (Msg_Ns m) (Msg_Extra m).

Definition set_Question (q : list Question) (m : Msg) : Msg :=
  mkMsg (Msg_Id m) (Msg_RecursionDesired m) (Msg_Rcode m) q
        (Msg_Answer m) (Msg_Ns m) (Msg_Extra m).

Definition set_Extra (x : list RR) (m : Msg) : Msg :=
  mkMsg (Msg_Id m) (Msg_RecursionDesired m) (Msg_Rcode m) (Msg_Question m)
        (Msg_Answer m) (Msg_Ns m) x.

(** A Go function value; the routine only ever stores nil ones. *)
Inductive func_value := FuncValue (id : nat).

Record TsigAlgorithm := mkTsigAlgorithm {
  Generate : option func_value;
  Verify   : option func_value
}.

Record Client := mkClient {
  Net                  : string;
  Client_TsigSecret    : gmap string string;
  Client_TsigAlgorithm : gmap string TsigAlgorithm
}.

(** ** Errors

    [ErrExternal] is an error produced by a collaborator, [Errorf] the
    value of [fmt.Errorf] with its formatted message, [MultiError] a
    [*multierror.Error] with its [Errors] slice. *)
#[warnings="-register-all"]
Inductive error :=
| ErrExternal (msg : string)
| Errorf (msg : string)
| MultiError (errs : list error).

(** [multierror.Append(err, e)] for one appended non-nil error [e]: the
    accumulator becomes (or stays) a [*multierror.Error]; an appended
    [*multierror.Error] is flattened into it, anything else is added
    as one element. *)
Definition multierror_items (e : error) : list error :=
  match e with
  | MultiError es => es
  | _ => [e]
  end.

Definition multierror_Append (err : option error) (e : error) : error :=
  match err with
  | None => MultiError (multierror_items e)
  | Some (MultiError es) => MultiError (es ++ multierror_items e)
  | Some e0 => MultiError (e0 :: multierror_items e)
  end.

(** The triple returned by [ExchangeTKEY]: [*dns.TKEY], [[]dns.RR]
    (None is the nil slice) and [error] (None is nil). *)
Definition Result : Type := option TKEY * option (list RR) * option error.

(** ** Pure library functions *)

Fixpoint string_forallb (p : ascii → bool) (s : string) : bool :=
  match s with
  | EmptyString => true
  | String c s' => p c && string_forallb p s'
  end.

Fixpoint string_map (f : ascii → ascii) (s : string) : string :=
  match s with
  | EmptyString => EmptyString
  | String c s' => String (f c) (string_map f s')
  end.

(** [c < utf8.RuneSelf] *)
Definition is_ASCII (c : ascii) : bool := (N_of_ascii c <? 128)%N.

(** [c += 'a' - 'A'] for ['A' <= c <= 'Z'] *)
Definition lower_ASCII (c : ascii) : ascii :=
  let n := N_of_ascii c in
  if ((65 <=? n) && (n <=? 90))%N then ascii_of_N (n + 32) else c.

(** [strings.ToLower]: the byte-wise path for pure ASCII input; any
    other input goes through [strings.Map(unicode.ToLower, s)], which
    is taken from the environment as [unicode_lower]. *)
Definition strings_ToLower (unicode_lower : string → string) (s : string) : string :=
  if string_forallb is_ASCII s then string_map lower_ASCII s
  else unicode_lower s.

(** [net.JoinHostPort]: a host containing a colon is bracketed. *)
Definition net_JoinHostPort (host port : string) : string :=
  if string_forallb (λ c, negb (Ascii.eqb c ":"%char)) host
  then host +:+ ":" +:+ port
  else "[" +:+ host +:+ "]:" +:+ port.

(** [encoding/hex]: [hextable[v>>4]], [hextable[v&0x0f]] per byte. *)
Definition hextable : string := "0123456789abcdef".

Definition hex_digit (n : N) : ascii :=
  match String.get (N.to_nat n) hextable with
  | Some c => c
  | None => "0"%char
  end.

Fixpoint hex_EncodeToString (src : list byte) : string :=
  match src with
  | [] => EmptyString
  | v :: rest =>
      let n := Byte.to_N v in
      String (hex_digit (N.shiftr n 4))
        (String (hex_digit (N.land n 15)) (hex_EncodeToString rest))
  end.

(** [Msg.SetTsig(z, algo, fudge, timesigned)] (pointer receiver): a
    fresh TSIG record is appended to the additional section. *)
Definition SetTsig (z algo : string) (fudge timesigned : Z) (m : Msg) : Msg :=
  let t := mkTSIG (mkRR_Header z TypeTSIG ClassANY 0 0) algo
                  (uint64 timesigned) fudge 0 "" (Msg_Id m) 0 0 "" in
  set_Extra (Msg_Extra m ++ [RR_TSIG t]) m.

(** ** The environment, the store and the log *)

(** A [*dns.Msg]: an index into the store. *)
Abbreviation loc := nat (only parsing).

(** What one call of [client.Exchange] does: the message it was handed
    as the call leaves it (the transport works on the caller's object
    and may change it, e.g. by stripping the TSIG record while signing),
    the reply and the error. *)
Record Outcome := mkOutcome {
  out_msg   : Msg;
  out_reply : option Msg;
  out_err   : option error
}.

(** The collaborators.
    - [env_unicode_lower]: [strings.Map(unicode.ToLower, s)];
    - [env_RcodeToString]: the table [dns.RcodeToString];
    - [env_Now k]: the value of the k-th [time.Now().Unix()];
    - [env_Id]: the value of [dns.Id()];
    - [env_LookupHost]: [net.LookupHost];
    - [env_Exchange k c m a]: the k-th call of [client.Exchange] (counted
      from 0), with client [c], message contents [m] and address [a]. *)
Record Env := mkEnv {
  env_unicode_lower : string → string;
  env_RcodeToString : gmap Z string;
  env_Now           : nat → Z;
  env_Id            : Z;
  env_LookupHost    : string → list string * option error;
  env_Exchange      : nat → Client → Msg → string → Outcome
}.

Inductive Event :=
| EvId (id : Z)
| EvNow (t : Z)
| EvLookupHost (host : string) (addrs : list string) (err : option error)
| EvExchange (k : nat) (c : Client) (p : loc) (sent : Msg) (addr : string)
             (reply : option Msg) (err : option error).

(** Host resolution and transport are the network activity. *)
Definition is_network (e : Event) : bool :=
  match e with
  | EvLookupHost _ _ _ | EvExchange _ _ _ _ _ _ _ => true
  | _ => false
  end.

Definition is_exchange (e : Event) : bool :=
  match e with
  | EvExchange _ _ _ _ _ _ _ => true
  | _ => false
  end.

Record State := mkState {
  heap        : list Msg;   (* the allocated messages, by location *)
  clock_reads : nat;        (* calls of time.Now so far *)
  attempts    : nat;        (* calls of client.Exchange so far *)
  trace       : list Event  (* calls of collaborators, oldest first *)
}.

Definition init_state : State := mkState [] 0 0 [].

Definition zero_Question : Question := mkQuestion "" 0 0.
Definition zero_Msg : Msg := mkMsg 0 false 0 [] [] [] [].

#[global] Instance Msg_inhabited : Inhabited Msg := populate zero_Msg.

(** ** The monad: state passing with Go's early [return] *)

Definition M (A : Type) : Type := State → (Result + A) * State.

#[global] Instance M_ret : MRet M := λ A a s, (inr a, s).

#[global] Instance M_bind : MBind M := λ A B f m s,
  match m s with
  | (inl r, s') => (inl r, s')
  | (inr a, s') => f a s'
  end.

(** [return tkey, records, err] *)
Definition Return {A : Type} (r : Result) : M A := λ s, (inl r, s).

Definition log (e : Event) (s : State) : State :=
  mkState (heap s) (clock_reads s) (attempts s) (trace s ++ [e]).

(** [&dns.Msg{...}] *)
Definition new_Msg (m : Msg) : M loc := λ s,
  (inr (length (heap s)),
   mkState (heap s ++ [m]) (clock_reads s) (attempts s) (trace s)).

(** An assignment through the pointer [p]. *)
Definition update (p : loc) (f : Msg → Msg) : M unit := λ s,
  (inr tt, mkState (alter f p (heap s)) (clock_reads s) (attempts s) (trace s)).

Section WithEnv.

Context (env : Env).

Definition Id : M Z := λ s,
  (inr (env_Id env), log (EvId (env_Id env)) s).

Definition Now : M Z := λ s,
  let t := env_Now env (clock_reads s) in
  (inr t, mkState (heap s) (S (clock_reads s)) (attempts s)
                  (trace s ++ [EvNow t])).

Definition LookupHost (host : string) : M (list string * option error) := λ s,
  let r := env_LookupHost env host in
  (inr r, log (EvLookupHost host r.1 r.2) s).

(** [client.Exchange(p, addr)]: the transport reads the message behind
    [p], may change it, and yields a reply and an error. *)
Definition Exchange (c : Client) (p : loc) (addr : string)
  : M (option Msg * option error) := λ s,
  let m := heap s !!! p in
  let o := env_Exchange env (attempts s) c m addr in
  (inr (out_reply o, out_err o),
   mkState (<[p := out_msg o]> (heap s)) (clock_reads s) (S (attempts s))
           (trace s ++ [EvExchange (attempts s) c p m addr (out_reply o) (out_err o)])).

Definition ToLower : string → string := strings_ToLower (env_unicode_lower env).

(** [dns.RcodeToString[code]]: a missing key reads as the empty string. *)
Definition rcode_name (code : Z) : string :=
  default "" (env_RcodeToString env !! code).

(** ** [ExchangeTKEY], block by block *)

(** tsig.go:109-121, [for _, addr := range addrs]: [rr] and [errs] are
    the loop-carried variables; the pair returned is their value when
    the loop is left. *)
Fixpoint attempt_loop (client : Client) (msg : loc) (addrs : list string)
    (rr : option Msg) (errs : option error) : M (option Msg * option error) :=
  match addrs with
  | [] => mret (rr, errs)
  | addr :: rest =>
      (* Every time we send the message the TSIG RR gets dropped *)
      let copied := msg in
      '(rr, err) ← Exchange client copied (net_JoinHostPort addr "53");
      match err with
      | None => mret (rr, errs)                      (* err == nil: break *)
      | Some e =>
          if bool_decide (rr ≠ None) then mret (rr, errs)   (* rr != nil: break *)
          else attempt_loop client msg rest rr (Some (multierror_Append errs e))
      end
  end.

(** tsig.go:135-146, [for _, ans := range rr.Answer]. *)
Fixpoint answer_loop (answer : list RR) (tkey : option TKEY) (additional : list RR)
  : M (option TKEY * list RR) :=
  match answer with
  | [] => mret (tkey, additional)
  | ans :: rest =>
      match ans with
      | RR_TKEY t =>
          (* There mustn't be more than one TKEY answer RR *)
          match tkey with
          | Some _ => Return (None, None, Some (Errorf "Multiple TKEY responses"))
          | None => answer_loop rest (Some t) additional
          end
      | _ => answer_loop rest tkey (additional ++ [ans])
      end
  end.

(** tsig.go:50-97: the message is allocated and filled in through the
    pointer; the [default] case of the mode switch leaves the routine. *)
Definition build_request (keyname algorithm : string) (mode lifetime : Z)
    (input : list byte) (extra : list RR) : M loc :=
  msg ← new_Msg (mkMsg 0 false 0 (replicate 1 zero_Question) [] []
                       (replicate 1 RR_nil));
  update msg (λ m, set_Question
    (<[0%nat := mkQuestion keyname TypeTKEY ClassANY]> (Msg_Question m)) m);;
  id ← Id;
  update msg (set_Id id);;
  now ← Now;
  '(inception, expiration) ←
    (if decide (mode = TkeyModeDH ∨ mode = TkeyModeGSS)
     then mret (uint32 now, uint32 (uint32 now + lifetime))
     else if decide (mode = TkeyModeDelete)
     then mret (0, 0)
     else Return (None, None,
                  Some (Errorf ("Unsupported TKEY mode " +:+ pretty mode))));
  update msg (λ m, set_Extra
    (<[0%nat := RR_TKEY (mkTKEY (mkRR_Header keyname TypeTKEY ClassANY 0 0)
                           algorithm inception expiration mode 0
                           (uint16 (Z.of_nat (length input)))
                           (hex_EncodeToString input) 0 "")]>
       (Msg_Extra m)) m);;
  update msg (λ m, set_Extra (Msg_Extra m ++ extra) m);;
  mret msg.

(** tsig.go:104-107: the client the transport will use. *)
Definition sign_request (client : Client) (msg : loc) (algorithm : string)
    (tsigname tsigalgo tsigmac : option string) : M Client :=
  match tsigname, tsigalgo, tsigmac with
  | Some tsigname, Some tsigalgo, Some tsigmac =>
      if decide (ToLower algorithm ≠ GSS)
      then
        let client := mkClient (Net client) {[tsigname := tsigmac]}
                               (Client_TsigAlgorithm client) in
        t ← Now;
        update msg (SetTsig tsigname tsigalgo 300 t);;
        mret client
      else mret client
  | _, _, _ => mret client
  end.

(** tsig.go:127-157: the checks on a reply. *)
Definition validate (rr : Msg) : M Result :=
  if decide (Msg_Rcode rr ≠ RcodeSuccess)
  then Return (None, None,
               Some (Errorf ("DNS error: " +:+ rcode_name (Msg_Rcode rr)
                             +:+ " (" +:+ pretty (Msg_Rcode rr) +:+ ")")))
  else
    '(tkey, additional) ← answer_loop (Msg_Answer rr) None [];
    (* There should always be at least a TKEY answer RR *)
    match tkey with
    | None => Return (None, None, Some (Errorf "Received no TKEY response"))
    | Some tkey =>
        if decide (TKEY_Error tkey ≠ 0)
        then Return (None, None,
                     Some (Errorf ("TKEY error: " +:+ rcode_name (TKEY_Error tkey)
                                   +:+ " (" +:+ pretty (TKEY_Error tkey) +:+ ")")))
        else Return (Some tkey, Some additional, None)
    end.

(** The whole routine, tsig.go:38-158. *)
Definition ExchangeTKEY (host keyname algorithm : string) (mode lifetime : Z)
    (input : list byte) (extra : list RR)
    (tsigname tsigalgo tsigmac : option string) : M Result :=
  let client := mkClient "tcp" ∅ ∅ in
  (* nsupdate(1) intentionally ignores the TSIG on the TKEY response for GSS *)
  let client :=
    if decide (ToLower algorithm = GSS)
    then mkClient (Net client) {[keyname := ""]} {[GSS := mkTsigAlgorithm None None]}
    else client in
  msg ← build_request keyname algorithm mode lifetime input extra;
  '(addrs, err) ← LookupHost host;
  match err with
  | Some e => Return (None, None, Some e)
  | None =>
      client ← sign_request client msg algorithm tsigname tsigalgo tsigmac;
      '(rr, errs) ← attempt_loop client msg addrs None None;
      match rr with
      | None => Return (None, None, errs)
      | Some rr => validate rr
      end
  end.

(** A call from the initial state: the returned triple and the final
    state (store and log). *)
Definition run (m : M Result) : Result * State :=
  match m init_state with
  | (inl r, s) => (r, s)
  | (inr r, s) => (r, s)
  end.

End WithEnv.

(** * Statements

    The definitions the properties are stated with: what a run lets
    one observe, the shapes of logs and results, and sample
    collaborators for the evaluations. *)

(** ** What a run lets one observe *)

(** The message the builder leaves in the store, when the builder
    completes. *)
Definition built (env : Env) (keyname algorithm : string) (mode lifetime : Z)
    (input : list byte) (extra : list RR) : option Msg :=
  match build_request env keyname algorithm mode lifetime input extra init_state with
  | (inr p, s) => heap s !! p
  | (inl _, _) => None
  end.

(** The TKEY record heading the additional section of a message. *)
Definition tkey_of (m : Msg) : option TKEY :=
  match Msg_Extra m with
  | RR_TKEY t :: _ => Some t
  | _ => None
  end.

Definition built_TKEY (env : Env) (keyname algorithm : string) (mode lifetime : Z)
    (input : list byte) (extra : list RR) : option TKEY :=
  built env keyname algorithm mode lifetime input extra ≫= tkey_of.

(** The calls of [client.Exchange] in a log, oldest first. *)
Definition exchanges (tr : list Event) : list Event := filter is_exchange tr.

Definition ev_index (e : Event) : option nat :=
  match e with EvExchange k _ _ _ _ _ _ => Some k | _ => None end.
Definition ev_client (e : Event) : option Client :=
  match e with EvExchange _ c _ _ _ _ _ => Some c | _ => None end.
Definition ev_loc (e : Event) : option loc :=
  match e with EvExchange _ _ p _ _ _ _ => Some p | _ => None end.
Definition ev_sent (e : Event) : option Msg :=
  match e with EvExchange _ _ _ m _ _ _ => Some m | _ => None end.
Definition ev_addr (e : Event) : option string :=
  match e with EvExchange _ _ _ _ a _ _ => Some a | _ => None end.
Definition ev_reply (e : Event) : option Msg :=
  match e with EvExchange _ _ _ _ _ r _ => r | _ => None end.
Definition ev_err (e : Event) : option error :=
  match e with EvExchange _ _ _ _ _ _ x => x | _ => None end.

(** The record the builder stores, and the message around it. *)
Definition request_TKEY (keyname algorithm : string) (mode inception expiration : Z)
    (input : list byte) : TKEY :=
  mkTKEY (mkRR_Header keyname TypeTKEY ClassANY 0 0) algorithm
         inception expiration mode 0
         (uint16 (Z.of_nat (length input))) (hex_EncodeToString input) 0 "".

Definition request_Msg (id : Z) (keyname : string) (additional : list RR) : Msg :=
  mkMsg id false 0 [mkQuestion keyname TypeTKEY ClassANY] [] [] additional.

Definition supported (mode : Z) : Prop :=
  mode = TkeyModeDH ∨ mode = TkeyModeGSS ∨ mode = TkeyModeDelete.

(** Inception and expiration as the mode switch sets them. *)
Definition timestamps (now mode lifetime : Z) : Z * Z :=
  if decide (mode = TkeyModeDelete) then (0, 0)
  else (uint32 now, uint32 (uint32 now + lifetime)).

(** ** The vocabulary of the statements *)

(** An attempt after which the loop goes on, and one at which it stops. *)
Definition failed (e : Event) : Prop := ev_reply e = None ∧ ev_err e ≠ None.
Definition stops (e : Event) : Prop := ev_err e = None ∨ ev_reply e ≠ None.

(** The accumulator [errs] after appending the errors [es] in turn. *)
Definition accumulate (errs : option error) (es : list error) : option error :=
  foldl (λ acc e, Some (multierror_Append acc e)) errs es.


(** A logged attempt whose reply and error are those the transport of
    [env] gives for its index, client, message and address. *)
Definition genuine (env : Env) (e : Event) : Prop :=
  match e with
  | EvExchange k c _ m a r x =>
      r = out_reply (env_Exchange env k c m a) ∧
      x = out_err (env_Exchange env k c m a)
  | _ => False
  end.

(** What the loop leaves behind: the attempts [evs] it logged, numbered
    from [k0], the reply [rr] and the accumulated error [errs]. *)
Definition delivery (env : Env) (c : Client) (p : loc) (first : Msg) (k0 : nat)
    (addrs : list string) (rr0 : option Msg) (errs0 : option error)
    (evs : list Event) (rr : option Msg) (errs : option error) : Prop :=
  Forall (λ e, is_exchange e = true ∧ ev_client e = Some c ∧ ev_loc e = Some p ∧
               genuine env e) evs ∧
  omap ev_addr evs = (λ a, net_JoinHostPort a "53") <$> take (length evs) addrs ∧
  omap ev_index evs = seq k0 (length evs) ∧
  (∀ e, head evs = Some e → ev_sent e = Some first) ∧
  ((Forall failed evs ∧ length evs = length addrs ∧
    rr = (if evs is [] then rr0 else None) ∧
    errs = accumulate errs0 (omap ev_err evs))
   ∨
   (∃ evs0 e, evs = evs0 ++ [e] ∧ Forall failed evs0 ∧ stops e ∧
              rr = ev_reply e ∧ errs = accumulate errs0 (omap ev_err evs0))).

Definition as_TKEY (r : RR) : option TKEY :=
  match r with
  | RR_TKEY t => Some t
  | _ => None
  end.

(** The TKEY-typed answers of a reply and its other answers, each in
    the order of the answer section. *)
Definition tkey_answers (rr : Msg) : list TKEY := omap as_TKEY (Msg_Answer rr).
Definition other_answers (rr : Msg) : list RR :=
  filter (λ r, as_TKEY r = None) (Msg_Answer rr).

(** The error values of the routine, by the variant they stand for. *)
Definition UnsupportedMode (mode : Z) : error :=
  Errorf ("Unsupported TKEY mode " +:+ pretty mode).
Definition ServerError (env : Env) (code : Z) : error :=
  Errorf ("DNS error: " +:+ rcode_name env code +:+ " (" +:+ pretty code +:+ ")").
Definition MultipleTkeyAnswers : error := Errorf "Multiple TKEY responses".
Definition NoTkeyAnswer : error := Errorf "Received no TKEY response".
Definition TkeyProtocolError (env : Env) (code : Z) : error :=
  Errorf ("TKEY error: " +:+ rcode_name env code +:+ " (" +:+ pretty code +:+ ")").

(** The outcome of validation, by cases on the reply. *)
Definition validated (env : Env) (rr : Msg) : Result :=
  if decide (Msg_Rcode rr ≠ RcodeSuccess)
  then (None, None, Some (ServerError env (Msg_Rcode rr)))
  else match tkey_answers rr with
       | [] => (None, None, Some NoTkeyAnswer)
       | [t] => if decide (TKEY_Error t ≠ 0)
                then (None, None, Some (TkeyProtocolError env (TKEY_Error t)))
                else (Some t, Some (other_answers rr), None)
       | _ => (None, None, Some MultipleTkeyAnswers)
       end.

(** The key name, algorithm and MAC the message is signed with, when
    the signing branch is taken. *)
Definition signing (env : Env) (algorithm : string)
    (tsigname tsigalgo tsigmac : option string) : option (string * string * string) :=
  match tsigname, tsigalgo, tsigmac with
  | Some n, Some a, Some m =>
      if decide (ToLower env algorithm ≠ GSS) then Some (n, a, m) else None
  | _, _, _ => None
  end.

(** The client of lines 40-48. *)
Definition initial_client (env : Env) (keyname algorithm : string) : Client :=
  if decide (ToLower env algorithm = GSS)
  then mkClient "tcp" {[keyname := ""]} {[GSS := mkTsigAlgorithm None None]}
  else mkClient "tcp" ∅ ∅.

Definition signed_client (c : Client) (sg : option (string * string * string)) : Client :=
  match sg with
  | Some (n, _, m) => mkClient (Net c) {[n := m]} (Client_TsigAlgorithm c)
  | None => c
  end.

Definition signed_Msg (env : Env) (sg : option (string * string * string)) (m : Msg) : Msg :=
  match sg with
  | Some (n, a, _) => SetTsig n a 300 (env_Now env 1) m
  | None => m
  end.

Definition signing_events (env : Env) (sg : option (string * string * string)) : list Event :=
  match sg with
  | Some _ => [EvNow (env_Now env 1)]
  | None => []
  end.

(** The reply the failover loop hands to validation: the reply of the
    last attempt in the log. *)
Definition received (tr : list Event) : option Msg := last (exchanges tr) ≫= ev_reply.

Definition is_success (r : Result) : Prop :=
  ∃ tkey records, r = (Some tkey, Some records, None).

#[global] Instance supported_dec mode : Decision (supported mode).
Proof. unfold supported. apply _. Defined.

(** The TKEY record heading the additional section of the first
    message handed to the transport. *)
Definition sent_TKEY (tr : list Event) : option TKEY :=
  (head (exchanges tr) ≫= ev_sent) ≫= tkey_of.

(** A decoder for lower-case hexadecimal text, two digits per byte. *)
Definition hex_value (c : ascii) : option N :=
  let n := N_of_ascii c in
  if ((48 <=? n) && (n <=? 57))%N then Some (n - 48)%N
  else if ((97 <=? n) && (n <=? 102))%N then Some (n - 87)%N
  else None.

Fixpoint hex_decode_lower (s : string) : option (list byte) :=
  match s with
  | EmptyString => Some []
  | String c1 (String c2 rest) =>
      hi ← hex_value c1;
      lo ← hex_value c2;
      b ← Byte.of_N (16 * hi + lo);
      tl ← hex_decode_lower rest;
      Some (b :: tl)
  | String _ EmptyString => None
  end.

Definition is_clock (e : Event) : bool :=
  match e with
  | EvNow _ => true
  | _ => false
  end.

(** What the dns library does to the caller's message when it writes a
    signed message: the trailing TSIG record is cut off the additional
    section ([m.Extra = m.Extra[0 : len(m.Extra)-1]] in [TsigGenerate]). *)
Definition strip_TSIG (m : Msg) : Msg :=
  match last (Msg_Extra m) with
  | Some (RR_TSIG _) => set_Extra (removelast (Msg_Extra m)) m
  | _ => m
  end.

(** ** Sample collaborators *)

(** The leading entries of [dns.RcodeToString]. *)
Definition sample_RcodeToString : gmap Z string :=
  list_to_map [(0, "NOERROR"); (1, "FORMERR"); (2, "SERVFAIL"); (3, "NXDOMAIN");
               (4, "NOTIMP"); (5, "REFUSED"); (9, "NOTAUTH"); (16, "BADSIG");
               (17, "BADKEY"); (18, "BADTIME"); (19, "BADMODE"); (20, "BADNAME");
               (21, "BADALG")].

(** An environment whose clock starts at [now] and advances by one
    second per reading, whose resolver answers [lookup] for every host,
    and whose k-th transport call is [xchg k] of the message. *)
Definition sample_env (now : Z) (lookup : list string * option error)
    (xchg : nat → Msg → Outcome) : Env :=
  mkEnv (λ s, s) sample_RcodeToString (λ k, now + Z.of_nat k) 4660
        (λ _, lookup) (λ k _ m _, xchg k m).

Definition sample_now : Z := 1793404800.

Definition sample_A : RR := RR_Other (mkRR_Header "ns.example." 1 1 300 4) "192.0.2.1".

Definition sample_TKEY (code : Z) : TKEY :=
  mkTKEY (mkRR_Header "key.example." TypeTKEY ClassANY 0 0) "hmac-sha256."
         sample_now (sample_now + 3600) TkeyModeDH code 2 "beef" 0 "".

Definition sample_reply (rcode : Z) (answer : list RR) : Msg :=
  mkMsg 4660 false rcode [mkQuestion "key.example." TypeTKEY ClassANY] answer [] [].

Definition refused : error := ErrExternal "dial tcp 192.0.2.1:53: connection refused".
Definition timed_out : error := ErrExternal "dial tcp 192.0.2.2:53: i/o timeout".

(** A transport that answers the first attempt with [reply]. *)
Definition answering (reply : Msg) : nat → Msg → Outcome :=
  λ _ m, mkOutcome m (Some reply) None.

Definition env_answering (reply : Msg) : Env :=
  sample_env sample_now (["192.0.2.1"], None) (answering reply).

(** A clock reading of today and the largest lifetime. *)
Definition env_wrap : Env := env_answering (sample_reply 0 []).

Definition env_two_addresses (xchg : nat → Msg → Outcome) : Env :=
  sample_env sample_now (["192.0.2.1"; "192.0.2.2"], None) xchg.


(** A transport that refuses the first attempt, times out on the
    second, and answers the third. *)
Definition third_answers (reply : Msg) : nat → Msg → Outcome :=
  λ k m, match k with
         | 0%nat => mkOutcome m None (Some refused)
         | 1%nat => mkOutcome m None (Some timed_out)
         | _ => mkOutcome m (Some reply) None
         end.

Definition env_three_addresses (xchg : nat → Msg → Outcome) : Env :=
  sample_env sample_now (["192.0.2.1"; "192.0.2.2"; "2001:db8::1"], None) xchg.

(** A resolver that returns no address and no error. *)
Definition env_no_address : Env :=
  sample_env sample_now ([], None) (answering (sample_reply 0 [])).

(** A resolver that fails. *)
Definition no_such_host : error := ErrExternal "lookup ns.example.: no such host".
Definition env_unresolved : Env :=
  sample_env sample_now ([], Some no_such_host) (answering (sample_reply 0 [])).



Definition read_timeout : error := ErrExternal "read tcp 192.0.2.1:53: i/o timeout".

(** A transport that writes the message to the first address and then
    times out reading, and gets [reply] from the second. *)
Definition written_then_lost (reply : Msg) : nat → Msg → Outcome :=
  λ k m, match k with
         | O => mkOutcome (strip_TSIG m) None (Some read_timeout)
         | S _ => mkOutcome (strip_TSIG m) (Some reply) None
         end.

(** ** Across attempts *)

(** Each attempt but the first is handed the message as the attempt
    before it left it. *)
Fixpoint threaded (env : Env) (evs : list Event) : Prop :=
  match evs with
  | e :: ((e' :: _) as rest) =>
      match e with
      | EvExchange k c _ m a _ _ =>
          ev_sent e' = Some (out_msg (env_Exchange env k c m a))
      | _ => False
      end ∧ threaded env rest
  | _ => True
  end.

(** A transport that leaves the caller's message as it found it. *)
Definition preserves_message (env : Env) : Prop :=
  ∀ k c m a, out_msg (env_Exchange env k c m a) = m.

(** A reply with a status code that has no entry in the table. *)
Definition unnamed_code : Z := 3841.

(** * Lemmas *)

Ltac unfold_M :=
  unfold mbind, M_bind, mret, M_ret, Return, new_Msg, update, Id, Now,
         LookupHost, Exchange, log in *; simpl in *.

(** ** The library functions on small inputs *)

Example ToLower_mixed_case : strings_ToLower (λ s, s) "GSS-TSIG." = GSS.
Proof. reflexivity. Qed.

Example ToLower_other : strings_ToLower (λ s, s) "HMAC-SHA256." = "hmac-sha256.".
Proof. reflexivity. Qed.

Example JoinHostPort_v4 : net_JoinHostPort "192.0.2.1" "53" = "192.0.2.1:53".
Proof. reflexivity. Qed.

Example JoinHostPort_v6 : net_JoinHostPort "2001:db8::1" "53" = "[2001:db8::1]:53".
Proof. reflexivity. Qed.

Example EncodeToString_bytes : hex_EncodeToString [x01; x02; xab] = "0102ab".
Proof. reflexivity. Qed.

Example Append_first : multierror_Append None refused = MultiError [refused].
Proof. reflexivity. Qed.

Example Append_next :
  multierror_Append (Some (MultiError [refused])) timed_out =
  MultiError [refused; timed_out].
Proof. reflexivity. Qed.

Example Append_flattens :
  multierror_Append (Some (MultiError [refused])) (MultiError [timed_out; refused]) =
  MultiError [refused; timed_out; refused].
Proof. reflexivity. Qed.

(** ** The builder *)

Section Builder.

Context (env : Env).

Lemma build_request_supported keyname algorithm mode lifetime input extra :
  supported mode →
  build_request env keyname algorithm mode lifetime input extra init_state =
  (inr 0%nat,
   mkState [request_Msg (env_Id env) keyname
              (RR_TKEY (request_TKEY keyname algorithm mode
                          (timestamps (env_Now env 0) mode lifetime).1
                          (timestamps (env_Now env 0) mode lifetime).2 input)
               :: extra)]
           1 0 [EvId (env_Id env); EvNow (env_Now env 0)]).
Proof.
  intros Hm. unfold build_request, timestamps. unfold_M.
  destruct Hm as [-> | [-> | ->]]; reflexivity.
Qed.

Lemma build_request_unsupported keyname algorithm mode lifetime input extra :
  ¬ supported mode →
  build_request env keyname algorithm mode lifetime input extra init_state =
  (inl (None, None, Some (Errorf ("Unsupported TKEY mode " +:+ pretty mode))),
   mkState [request_Msg (env_Id env) keyname [RR_nil]]
           1 0 [EvId (env_Id env); EvNow (env_Now env 0)]).
Proof.
  intros Hm. unfold build_request, supported in *. unfold_M.
  destruct (decide (mode = TkeyModeDH ∨ mode = TkeyModeGSS)) as [H|H].
  { exfalso. tauto. }
  destruct (decide (mode = TkeyModeDelete)) as [H'|H']; [exfalso; tauto|].
  reflexivity.
Qed.

End Builder.

(** ** The failover loop *)



Section Loop.

Context (env : Env).

Lemma attempt_loop_spec c p addrs : ∀ rr0 errs0 s,
  ∃ evs rr errs hp,
    attempt_loop env c p addrs rr0 errs0 s =
      (inr (rr, errs),
       mkState hp (clock_reads s) (attempts s + length evs) (trace s ++ evs)) ∧
    delivery env c p (heap s !!! p) (attempts s) addrs rr0 errs0 evs rr errs.
Proof.
  induction addrs as [|a rest IH]; intros rr0 errs0 s.
  - exists [], rr0, errs0, (heap s). split.
    + simpl. unfold_M. rewrite Nat.add_0_r, app_nil_r. by destruct s.
    + repeat split; try done. left. by repeat split.
  - simpl. unfold_M.
    destruct (env_Exchange env (attempts s) c (heap s !!! p) (net_JoinHostPort a "53"))
      as [m' r x] eqn:Ho; simpl.
    set (e := EvExchange (attempts s) c p (heap s !!! p) (net_JoinHostPort a "53") r x).
    destruct x as [x|]; [destruct r as [r|]|].
    + (* a reply alongside an error: break *)
      rewrite bool_decide_eq_true_2 by done. simpl.
      exists [e], (Some r), errs0, (<[p:=m']> (heap s)). split.
      { simpl. by rewrite Nat.add_1_r. }
      repeat split.
      { constructor; [subst e; simpl; by rewrite Ho | done]. }
      { by intros e' [= <-]. }
      right. exists [], e. repeat split; try done. by right.
    + (* an error and no reply: next address *)
      rewrite bool_decide_eq_false_2 by (intros H; by apply H).
      destruct (IH None (Some (multierror_Append errs0 x))
                   (mkState (<[p:=m']> (heap s)) (clock_reads s)
                            (S (attempts s)) (trace s ++ [e])))
        as (evs & rr & errs & hp & Hrun & Hall & Haddr & Hidx & Hfirst & Hcase).
      exists (e :: evs), rr, errs, hp. split.
      { rewrite Hrun. simpl. by rewrite <- app_assoc, Nat.add_succ_r. }
      assert (Hfe : failed e) by done.
      repeat split.
      { constructor; [subst e; simpl; by rewrite Ho | done]. }
      { subst e. simpl. f_equal. exact Haddr. }
      { subst e. simpl. f_equal. exact Hidx. }
      { by intros e' [= <-]. }
      destruct Hcase as [(Hf & Hlen & Hrr & Herrs)
                        | (evs0 & e' & -> & Hf & Hs & Hrr & Herrs)].
      * left. repeat split; try done.
        -- by constructor.
        -- simpl. by rewrite Hlen.
        -- rewrite Hrr. by destruct evs.
      * right. exists (e :: evs0), e'. repeat split; try done.
        by constructor.
    + (* no error: break *)
      exists [e], r, errs0, (<[p:=m']> (heap s)). split.
      { simpl. by rewrite Nat.add_1_r. }
      repeat split.
      { constructor; [subst e; simpl; by rewrite Ho | done]. }
      { by intros e' [= <-]. }
      right. exists [], e. repeat split; try done. by left.
Qed.

End Loop.

(** ** The validator *)

Section Validator.

Context (env : Env).

Lemma answer_loop_spec answer : ∀ tkey additional s,
  answer_loop answer tkey additional s =
  match option_list tkey ++ omap as_TKEY answer with
  | _ :: _ :: _ => (inl (None, None, Some MultipleTkeyAnswers), s)
  | all => (inr (head all, additional ++ filter (λ r, as_TKEY r = None) answer), s)
  end.
Proof.
  induction answer as [|ans rest IH]; intros tkey additional s.
  - simpl. rewrite !app_nil_r. by destruct tkey.
  - destruct ans as [|t|t|h d]; simpl.
    + rewrite IH, filter_cons_True by done. by rewrite <- app_assoc.
    + destruct tkey as [t0|]; [done|].
      rewrite IH, filter_cons_False; [done|by intros ?].
    + rewrite IH, filter_cons_True by done. by rewrite <- app_assoc.
    + rewrite IH, filter_cons_True by done. by rewrite <- app_assoc.
Qed.

Lemma validate_spec rr s : validate env rr s = (inl (validated env rr), s).
Proof.
  unfold validate, validated, tkey_answers, other_answers.
  destruct (decide (Msg_Rcode rr ≠ RcodeSuccess)); [done|].
  unfold mbind, M_bind. rewrite answer_loop_spec. simpl.
  destruct (omap as_TKEY (Msg_Answer rr)) as [|t [|t' l]]; simpl; try done.
  by destruct (decide (TKEY_Error t ≠ 0)).
Qed.

End Validator.

(** ** The signer and whole runs *)

Section Run.

Context (env : Env).

Lemma sign_request_spec c m algorithm tsigname tsigalgo tsigmac tr :
  let sg := signing env algorithm tsigname tsigalgo tsigmac in
  sign_request env c 0%nat algorithm tsigname tsigalgo tsigmac (mkState [m] 1 0 tr) =
  (inr (signed_client c sg),
   mkState [signed_Msg env sg m] (1 + length (signing_events env sg)) 0
           (tr ++ signing_events env sg)).
Proof.
  unfold sign_request, signing.
  destruct tsigname as [n|], tsigalgo as [a|], tsigmac as [k|]; simpl;
    rewrite ?app_nil_r; try done.
  destruct (decide (ToLower env algorithm ≠ GSS)); simpl;
    rewrite ?app_nil_r; done.
Qed.

(** A run with a supported mode whose resolution succeeds: the log is
    the builder's two calls, the resolution, the signer's clock reading
    if it signs, and the attempts of the loop. *)
Lemma run_delivery host keyname algorithm mode lifetime input extra
      tsigname tsigalgo tsigmac addrs :
  supported mode →
  env_LookupHost env host = (addrs, None) →
  let sg := signing env algorithm tsigname tsigalgo tsigmac in
  let ts := timestamps (env_Now env 0) mode lifetime in
  let m0 := request_Msg (env_Id env) keyname
              (RR_TKEY (request_TKEY keyname algorithm mode ts.1 ts.2 input) :: extra) in
  ∃ evs rr errs hp,
    run (ExchangeTKEY env host keyname algorithm mode lifetime input extra
                      tsigname tsigalgo tsigmac) =
      (match rr with
       | None => (None, None, errs)
       | Some r => validated env r
       end,
       mkState hp (1 + length (signing_events env sg)) (length evs)
               ([EvId (env_Id env); EvNow (env_Now env 0); EvLookupHost host addrs None]
                ++ signing_events env sg ++ evs)) ∧
    delivery env (signed_client (initial_client env keyname algorithm) sg) 0%nat
             (signed_Msg env sg m0) 0 addrs None None evs rr errs.
Proof.
  intros Hm Hl sg ts m0.
  unfold run, ExchangeTKEY, mbind, M_bind.
  rewrite build_request_supported by done.
  unfold LookupHost, log. rewrite Hl. simpl.
  fold (initial_client env keyname algorithm).
  rewrite sign_request_spec. fold sg. fold ts. fold m0.
  match goal with |- context [attempt_loop env ?c ?p ?a ?r ?e ?s] =>
    destruct (attempt_loop_spec env c p a r e s) as (evs & rr & errs & hp & Hrun & Hd)
  end.
  exists evs, rr, errs, hp. rewrite Hrun. simpl. split; [|exact Hd].
  destruct rr as [r|]; [by rewrite validate_spec | done].
Qed.

Lemma run_unsupported host keyname algorithm mode lifetime input extra
      tsigname tsigalgo tsigmac :
  ¬ supported mode →
  run (ExchangeTKEY env host keyname algorithm mode lifetime input extra
                    tsigname tsigalgo tsigmac) =
  ((None, None, Some (UnsupportedMode mode)),
   mkState [request_Msg (env_Id env) keyname [RR_nil]] 1 0
           [EvId (env_Id env); EvNow (env_Now env 0)]).
Proof.
  intros Hm. unfold run, ExchangeTKEY, mbind, M_bind.
  by rewrite build_request_unsupported.
Qed.

Lemma run_resolution_error host keyname algorithm mode lifetime input extra
      tsigname tsigalgo tsigmac addrs e :
  supported mode →
  env_LookupHost env host = (addrs, Some e) →
  let ts := timestamps (env_Now env 0) mode lifetime in
  run (ExchangeTKEY env host keyname algorithm mode lifetime input extra
                    tsigname tsigalgo tsigmac) =
  ((None, None, Some e),
   mkState [request_Msg (env_Id env) keyname
              (RR_TKEY (request_TKEY keyname algorithm mode ts.1 ts.2 input) :: extra)]
           1 0
           [EvId (env_Id env); EvNow (env_Now env 0); EvLookupHost host addrs (Some e)]).
Proof.
  intros Hm Hl ts. unfold run, ExchangeTKEY, mbind, M_bind.
  rewrite build_request_supported by done.
  unfold LookupHost, log. by rewrite Hl.
Qed.

End Run.

(** ** Reading a run *)

Lemma exchanges_app tr1 tr2 : exchanges (tr1 ++ tr2) = exchanges tr1 ++ exchanges tr2.
Proof. apply filter_app. Qed.

Lemma exchanges_all evs :
  Forall (λ e, is_exchange e = true) evs → exchanges evs = evs.
Proof.
  induction 1 as [|e evs He _ IH]; [done|].
  unfold exchanges in *. rewrite filter_cons_True by (by rewrite He). by rewrite IH.
Qed.

Lemma exchanges_signing env sg : exchanges (signing_events env sg) = [].
Proof. by destruct sg. Qed.

Lemma network_signing env sg : filter is_network (signing_events env sg) = [].
Proof. by destruct sg. Qed.

Lemma network_all evs :
  Forall (λ e, is_exchange e = true) evs → filter is_network evs = evs.
Proof.
  induction 1 as [|e evs He _ IH]; [done|].
  rewrite filter_cons_True by (by destruct e). by rewrite IH.
Qed.

Lemma delivery_exchanges env c p first k0 addrs rr0 errs0 evs rr errs :
  delivery env c p first k0 addrs rr0 errs0 evs rr errs → exchanges evs = evs.
Proof.
  intros (Hall & _). apply exchanges_all.
  eapply Forall_impl; [exact Hall|]. by intros e (? & _).
Qed.

Lemma last_failed_reply evs : Forall failed evs → last evs ≫= ev_reply = None.
Proof.
  intros Hf. destruct (last evs) as [e|] eqn:He; [|done]. simpl.
  apply last_Some in He as (l' & ->).
  apply Forall_app in Hf as (_ & Hf). by inversion Hf as [|? ? (? & _)].
Qed.

Section Reading.

Context (env : Env).

(** The three shapes of a run. *)
Lemma run_cases host keyname algorithm mode lifetime input extra
      tsigname tsigalgo tsigmac :
  let r := run (ExchangeTKEY env host keyname algorithm mode lifetime input extra
                             tsigname tsigalgo tsigmac) in
  (¬ supported mode ∧ r.1 = (None, None, Some (UnsupportedMode mode)) ∧
   trace r.2 = [EvId (env_Id env); EvNow (env_Now env 0)])
  ∨ (∃ addrs e, supported mode ∧ env_LookupHost env host = (addrs, Some e) ∧
       r.1 = (None, None, Some e) ∧
       trace r.2 = [EvId (env_Id env); EvNow (env_Now env 0);
                    EvLookupHost host addrs (Some e)])
  ∨ (∃ addrs evs rr errs,
       supported mode ∧ env_LookupHost env host = (addrs, None) ∧
       r.1 = match rr with
             | None => (None, None, errs)
             | Some m => validated env m
             end ∧
       exchanges (trace r.2) = evs ∧
       filter is_network (trace r.2) = EvLookupHost host addrs None :: evs ∧
       let sg := signing env algorithm tsigname tsigalgo tsigmac in
       let ts := timestamps (env_Now env 0) mode lifetime in
       delivery env (signed_client (initial_client env keyname algorithm) sg) 0%nat
         (signed_Msg env sg
            (request_Msg (env_Id env) keyname
               (RR_TKEY (request_TKEY keyname algorithm mode ts.1 ts.2 input) :: extra)))
         0 addrs None None evs rr errs).
Proof.
  intros r. subst r.
  destruct (decide (supported mode)) as [Hm|Hm].
  - destruct (env_LookupHost env host) as [addrs [e|]] eqn:Hl.
    + right; left. exists addrs, e.
      rewrite (run_resolution_error env _ _ _ _ _ _ _ _ _ _ addrs e Hm Hl). by simpl.
    + right; right.
      destruct (run_delivery env host keyname algorithm mode lifetime input extra
                  tsigname tsigalgo tsigmac addrs Hm Hl)
        as (evs & rr & errs & hp & -> & Hd).
      exists addrs, evs, rr, errs. cbn [fst snd trace].
      pose proof (delivery_exchanges _ _ _ _ _ _ _ _ _ _ _ Hd) as Hx.
      assert (Hn : filter is_network evs = evs).
      { apply network_all. destruct Hd as (Hall & _).
        eapply Forall_impl; [exact Hall|]. by intros e (? & _). }
      split; [done|]. split; [done|]. split; [done|].
      split; [|split; [|exact Hd]].
      * by rewrite !exchanges_app, exchanges_signing, Hx.
      * by rewrite !filter_app, network_signing, Hn.
  - left. by rewrite run_unsupported.
Qed.

(** Once a reply is received, the result of the call is the outcome of
    validating that reply. *)
Lemma run_received host keyname algorithm mode lifetime input extra
      tsigname tsigalgo tsigmac rr :
  let r := run (ExchangeTKEY env host keyname algorithm mode lifetime input extra
                             tsigname tsigalgo tsigmac) in
  received (trace r.2) = Some rr → r.1 = validated env rr.
Proof.
  intros r. subst r. unfold received.
  destruct (run_cases host keyname algorithm mode lifetime input extra
              tsigname tsigalgo tsigmac)
    as [(_ & _ & ->) | [(addrs & e & _ & _ & _ & ->)
                       | (addrs & evs & rr' & errs & _ & _ & -> & -> & _ & Hd)]];
    try done.
  destruct Hd as (_ & _ & _ & _ & [(Hf & _) | (evs0 & e & -> & _ & _ & -> & _)]).
  - by rewrite last_failed_reply.
  - rewrite last_snoc. simpl. by intros ->.
Qed.

End Reading.

(** * The claims *)




(** C2. For every mode other than Diffie-Hellman, GSS and Delete (the
    server-assigned and resolver-assigned modes among them) the call
    returns the unsupported-mode error with a nil TKEY and nil records,
    and its log holds no resolution and no transport call. *)
Theorem C2_unsupported_mode env host keyname algorithm mode lifetime input extra
        tsigname tsigalgo tsigmac :
  mode ≠ TkeyModeDH → mode ≠ TkeyModeGSS → mode ≠ TkeyModeDelete →
  let r := run (ExchangeTKEY env host keyname algorithm mode lifetime input extra
                             tsigname tsigalgo tsigmac) in
  r.1 = (None, None, Some (Errorf ("Unsupported TKEY mode " +:+ pretty mode))) ∧
  filter is_network (trace r.2) = [].
Proof.
  intros H1 H2 H3 r. subst r.
  rewrite run_unsupported; [done|]. unfold supported. tauto.
Qed.

Lemma C2_unsupported_mode_witness :
  let r m := run (ExchangeTKEY (env_answering (sample_reply 0 []))
                    "ns.example." "key.example." "hmac-sha256." m 3600
                    [xbe; xef] [] None None None) in
  ((r TkeyModeServer).1 = (None, None, Some (Errorf "Unsupported TKEY mode 1")) ∧
   filter is_network (trace (r TkeyModeServer).2) = []) ∧
  ((r TkeyModeResolver).1 = (None, None, Some (Errorf "Unsupported TKEY mode 4")) ∧
   filter is_network (trace (r TkeyModeResolver).2) = []).
Proof.
  split.
  - apply (C2_unsupported_mode _ _ _ _ TkeyModeServer); by vm_compute.
  - apply (C2_unsupported_mode _ _ _ _ TkeyModeResolver); by vm_compute.
Defined.

(** ** The builder's record *)

Lemma hex_byte_roundtrip (v : byte) :
  let n := Byte.to_N v in
  (hi ← hex_value (hex_digit (N.shiftr n 4));
   lo ← hex_value (hex_digit (N.land n 15));
   Byte.of_N (16 * hi + lo)) = Some v.
Proof. destruct v; reflexivity. Qed.

Lemma hex_roundtrip (input : list byte) :
  hex_decode_lower (hex_EncodeToString input) = Some input.
Proof.
  induction input as [|v rest IH]; [done|].
  pose proof (hex_byte_roundtrip v) as Hv. simpl in *.
  destruct (hex_value (hex_digit (N.shiftr (Byte.to_N v) 4))) as [hi|]; [|done].
  destruct (hex_value (hex_digit (N.land (Byte.to_N v) 15))) as [lo|]; [|done].
  simpl in *. rewrite Hv. simpl. by rewrite IH.
Qed.

Lemma hex_length (input : list byte) :
  String.length (hex_EncodeToString input) = (2 * length input)%nat.
Proof. induction input as [|v rest IH]; simpl; [done|]. rewrite IH. lia. Qed.

Section BuiltRecord.

Context (env : Env).

Lemma built_TKEY_supported keyname algorithm mode lifetime input extra :
  supported mode →
  built_TKEY env keyname algorithm mode lifetime input extra =
  Some (request_TKEY keyname algorithm mode
          (timestamps (env_Now env 0) mode lifetime).1
          (timestamps (env_Now env 0) mode lifetime).2 input).
Proof.
  intros Hm. unfold built_TKEY, built.
  by rewrite build_request_supported.
Qed.

(** The first message sent carries the builder's record. *)
Lemma sent_TKEY_built host keyname algorithm mode lifetime input extra
      tsigname tsigalgo tsigmac tk :
  sent_TKEY (trace (run (ExchangeTKEY env host keyname algorithm mode lifetime
                           input extra tsigname tsigalgo tsigmac)).2) = Some tk →
  built_TKEY env keyname algorithm mode lifetime input extra = Some tk.
Proof.
  unfold sent_TKEY.
  destruct (run_cases env host keyname algorithm mode lifetime input extra
              tsigname tsigalgo tsigmac)
    as [(_ & _ & ->) | [(addrs & e & _ & _ & _ & ->)
                       | (addrs & evs & rr' & errs & Hm & _ & _ & -> & _ & Hd)]];
    try done.
  destruct Hd as (_ & _ & _ & Hfirst & _).
  destruct evs as [|e evs]; [done|]. simpl.
  rewrite (Hfirst e eq_refl). simpl.
  rewrite built_TKEY_supported by done.
  by destruct (signing env algorithm tsigname tsigalgo tsigmac) as [[[n a] k]|].
Qed.

End BuiltRecord.

(** C3, as the claim states it, fails: with the clock at 1793404800 and
    a lifetime of 4294967295 seconds the record built in GSS mode has
    an expiration one second before its inception. *)
Lemma C3_counterexample :
  ∃ tk, built_TKEY env_wrap "key.example." "gss-tsig." TkeyModeGSS 4294967295 [] []
        = Some tk ∧
        TKEY_Inception tk = env_Now env_wrap 0 ∧
        TKEY_Expiration tk = 1793404799 ∧
        TKEY_Expiration tk ≠ TKEY_Inception tk + 4294967295 ∧
        TKEY_Expiration tk - TKEY_Inception tk ≠ 4294967295.
Proof. eexists. split; [reflexivity|]. by vm_compute. Qed.

(** C3, amended. In the Diffie-Hellman and GSS modes the inception of
    the built record is the epoch seconds read at build time truncated
    to 32 bits, and its expiration is inception plus the lifetime modulo
    2^32, so that expiration minus inception is the lifetime modulo 2^32;
    both are the plain values whenever the clock reading is not negative
    and reading plus lifetime stays below 2^32. In Delete mode both are
    zero whatever the lifetime. The record is the one the first message
    sent carries. *)
Theorem C3_timestamps env host keyname algorithm mode lifetime input extra
        tsigname tsigalgo tsigmac :
  let now := env_Now env 0 in
  (mode = TkeyModeDH ∨ mode = TkeyModeGSS →
   ∃ tk, built_TKEY env keyname algorithm mode lifetime input extra = Some tk ∧
     TKEY_Inception tk = now mod 2 ^ 32 ∧
     TKEY_Expiration tk = (TKEY_Inception tk + lifetime) mod 2 ^ 32 ∧
     (TKEY_Expiration tk - TKEY_Inception tk) mod 2 ^ 32 = lifetime mod 2 ^ 32 ∧
     (0 ≤ now → 0 ≤ lifetime → now + lifetime < 2 ^ 32 →
      TKEY_Inception tk = now ∧
      TKEY_Expiration tk = TKEY_Inception tk + lifetime ∧
      TKEY_Expiration tk - TKEY_Inception tk = lifetime)) ∧
  (mode = TkeyModeDelete →
   ∃ tk, built_TKEY env keyname algorithm mode lifetime input extra = Some tk ∧
     TKEY_Inception tk = 0 ∧ TKEY_Expiration tk = 0) ∧
  (∀ tk, sent_TKEY (trace (run (ExchangeTKEY env host keyname algorithm mode lifetime
                                  input extra tsigname tsigalgo tsigmac)).2) = Some tk →
         built_TKEY env keyname algorithm mode lifetime input extra = Some tk).
Proof.
  intros now. split; [|split].
  - intros Hm. eexists. split.
    { apply built_TKEY_supported. unfold supported. tauto. }
    unfold timestamps, uint32.
    rewrite decide_False by (unfold TkeyModeDelete, TkeyModeDH, TkeyModeGSS in *; lia).
    cbn [fst snd TKEY_Inception TKEY_Expiration request_TKEY]. fold now.
    change (2 ^ 32) with 4294967296.
    split; [done|]. split; [done|]. split.
    + rewrite Zminus_mod_idemp_l.
      f_equal. lia.
    + intros H0 Hl Hlt. rewrite (Z.mod_small now) by lia.
      rewrite Z.mod_small by lia. lia.
  - intros ->. eexists. split.
    { apply built_TKEY_supported. unfold supported. tauto. }
    done.
  - apply sent_TKEY_built.
Qed.

Lemma C3_timestamps_witness :
  (∃ tk, built_TKEY env_wrap "key.example." "gss-tsig." TkeyModeGSS 3600 [xbe; xef] []
         = Some tk ∧
     TKEY_Inception tk = 1793404800 ∧ TKEY_Expiration tk = 1793408400) ∧
  (∃ tk, built_TKEY env_wrap "key.example." "gss-tsig." TkeyModeDelete 3600 [xbe; xef] []
         = Some tk ∧
     TKEY_Inception tk = 0 ∧ TKEY_Expiration tk = 0).
Proof.
  destruct (C3_timestamps env_wrap "ns.example." "key.example." "gss-tsig."
              TkeyModeGSS 3600 [xbe; xef] [] None None None) as (Hg & _ & _).
  destruct (C3_timestamps env_wrap "ns.example." "key.example." "gss-tsig."
              TkeyModeDelete 3600 [xbe; xef] [] None None None) as (_ & Hd & _).
  split.
  - destruct (Hg (or_intror eq_refl)) as (tk & Hb & _ & _ & _ & Hp).
    exists tk. split; [exact Hb|].
    destruct Hp as (Hi & He & _); [by vm_compute..|].
    rewrite He, Hi. by vm_compute.
  - exact (Hd eq_refl).
Defined.

(** C10. The expiration is computed in unsigned 32-bit arithmetic as
    uint32(now) + lifetime: whenever that sum reaches 2^32 the built
    record's expiration is below its inception, while expiration minus
    inception still equals the lifetime modulo 2^32. *)
Theorem C10_expiration_wraps env keyname algorithm mode lifetime input extra :
  mode = TkeyModeDH ∨ mode = TkeyModeGSS →
  0 ≤ lifetime < 2 ^ 32 →
  2 ^ 32 ≤ uint32 (env_Now env 0) + lifetime →
  ∃ tk, built_TKEY env keyname algorithm mode lifetime input extra = Some tk ∧
    TKEY_Inception tk = uint32 (env_Now env 0) ∧
    TKEY_Expiration tk = (uint32 (env_Now env 0) + lifetime) mod 2 ^ 32 ∧
    TKEY_Expiration tk < TKEY_Inception tk ∧
    (TKEY_Expiration tk - TKEY_Inception tk) mod 2 ^ 32 = lifetime.
Proof.
  intros Hm Hl Hw. eexists. split.
  { apply built_TKEY_supported. unfold supported. tauto. }
  unfold timestamps.
  rewrite decide_False by (unfold TkeyModeDelete, TkeyModeDH, TkeyModeGSS in *; lia).
  cbn [fst snd TKEY_Inception TKEY_Expiration request_TKEY].
  unfold uint32 in *. change (2 ^ 32) with 4294967296 in *.
  set (n := env_Now env 0 mod 4294967296) in *.
  assert (Hn : 0 ≤ n < 4294967296) by (apply Z.mod_pos_bound; lia).
  assert (He : (n + lifetime) mod 4294967296 = n + lifetime - 4294967296).
  { symmetry. apply (Z.mod_unique_pos _ _ 1); lia. }
  rewrite He. repeat split; try lia.
  symmetry. apply (Z.mod_unique_pos _ _ (-1)); lia.
Qed.

Lemma C10_expiration_wraps_witness :
  ∃ tk, built_TKEY env_wrap "key.example." "gss-tsig." TkeyModeGSS 4294967295 [] []
        = Some tk ∧
    TKEY_Inception tk = uint32 (env_Now env_wrap 0) ∧
    TKEY_Expiration tk = (uint32 (env_Now env_wrap 0) + 4294967295) mod 2 ^ 32 ∧
    TKEY_Expiration tk < TKEY_Inception tk ∧
    (TKEY_Expiration tk - TKEY_Inception tk) mod 2 ^ 32 = 4294967295.
Proof.
  apply (C10_expiration_wraps env_wrap "key.example." "gss-tsig." TkeyModeGSS
           4294967295 [] []).
  - right. reflexivity.
  - by vm_compute.
  - by vm_compute.
Defined.

(** C8, as the claim states it, fails: for a key material of 65536
    bytes the key size of the built record is 0. *)
Lemma C8_counterexample :
  ∃ tk, built_TKEY env_wrap "key.example." "gss-tsig." TkeyModeGSS 3600
          (replicate (Z.to_nat 65536) x00) [] = Some tk ∧
        TKEY_KeySize tk = 0 ∧
        TKEY_KeySize tk ≠ Z.of_nat (length (replicate (Z.to_nat 65536) x00)).
Proof.
  eexists. split.
  { apply built_TKEY_supported. unfold supported. tauto. }
  cbn [TKEY_KeySize request_TKEY]. rewrite length_replicate. by vm_compute.
Qed.

(** C8, amended. For every key material the key size of the built
    record is its byte length modulo 2^16, hence the byte length itself
    whenever that is below 65536, and the key field is its lower-case
    hexadecimal encoding: two digits per byte that decode back to the
    key material. Key material 01 02 AB gives the key 0102ab and the
    key size 3. The record is the one the first message sent carries. *)
Theorem C8_key_fields env host keyname algorithm mode lifetime input extra
        tsigname tsigalgo tsigmac :
  supported mode →
  (∃ tk, built_TKEY env keyname algorithm mode lifetime input extra = Some tk ∧
     TKEY_KeySize tk = Z.of_nat (length input) mod 2 ^ 16 ∧
     (Z.of_nat (length input) < 65536 → TKEY_KeySize tk = Z.of_nat (length input)) ∧
     TKEY_Key tk = hex_EncodeToString input ∧
     String.length (TKEY_Key tk) = (2 * length input)%nat ∧
     hex_decode_lower (TKEY_Key tk) = Some input ∧
     (input = [x01; x02; xab] → TKEY_Key tk = "0102ab" ∧ TKEY_KeySize tk = 3)) ∧
  (∀ tk, sent_TKEY (trace (run (ExchangeTKEY env host keyname algorithm mode lifetime
                                  input extra tsigname tsigalgo tsigmac)).2) = Some tk →
         built_TKEY env keyname algorithm mode lifetime input extra = Some tk).
Proof.
  intros Hm. split; [|apply sent_TKEY_built].
  eexists. split; [by apply built_TKEY_supported|].
  cbn [TKEY_KeySize TKEY_Key request_TKEY]. unfold uint16.
  split; [done|]. split.
  { intros Hl. apply Z.mod_small. change (2 ^ 16) with 65536. lia. }
  split; [done|]. split; [apply hex_length|]. split; [apply hex_roundtrip|].
  intros ->. split; reflexivity.
Qed.

Lemma C8_key_fields_witness :
  ∃ tk, built_TKEY env_wrap "key.example." "gss-tsig." TkeyModeGSS 3600
          [x01; x02; xab] [] = Some tk ∧
        TKEY_Key tk = "0102ab" ∧ TKEY_KeySize tk = 3.
Proof.
  destruct (C8_key_fields env_wrap "ns.example." "key.example." "gss-tsig."
              TkeyModeGSS 3600 [x01; x02; xab] [] None None None)
    as ((tk & Hb & _ & _ & _ & _ & _ & Hx) & _).
  { right. left. reflexivity. }
  exists tk. split; [exact Hb|]. apply Hx. reflexivity.
Defined.

(** ** The signer and the first message *)

Lemma delivery_head env c p first k0 a rest rr0 errs0 evs rr errs :
  delivery env c p first k0 (a :: rest) rr0 errs0 evs rr errs →
  ∃ e, head evs = Some e ∧ ev_client e = Some c ∧ ev_loc e = Some p ∧
       ev_sent e = Some first ∧ ev_index e = Some k0 ∧ genuine env e ∧
       Forall (λ e', ev_client e' = Some c ∧ ev_loc e' = Some p) evs.
Proof.
  intros (Hall & _ & Hidx & Hfirst & Hcase).
  assert (Hne : evs ≠ []).
  { destruct Hcase as [(_ & Hlen & _) | (evs0 & e & -> & _)].
    - by destruct evs.
    - by destruct evs0. }
  destruct evs as [|e evs]; [done|].
  exists e. inversion Hall as [|? ? (He & Hc & Hp & Hg) _]; subst.
  split; [done|]. split; [done|]. split; [done|]. split; [by apply Hfirst|].
  split; [|split; [done|]].
  - destruct e; try done. simpl in Hidx. by injection Hidx as -> _.
  - eapply Forall_impl; [exact Hall|]. by intros ? (_ & ? & ? & _).
Qed.

(** C4. With an algorithm that is the GSS name up to case, every
    attempt uses a client whose algorithm table binds the GSS name to a
    null algorithm and whose secret table binds the key name to the
    empty secret, and the message sent carries no TSIG record after the
    TKEY record and the extra records, whatever TSIG parameters were
    given. With any other algorithm and all three TSIG parameters
    present, the client's secret table binds the TSIG key name to the
    MAC and the message ends with a TSIG record of that name and
    algorithm, fudge 300 and the time read at signing. When one of the
    three is absent the message is sent without a TSIG record. *)
Theorem C4_signer env host keyname algorithm mode lifetime input extra
        tsigname tsigalgo tsigmac a rest :
  supported mode →
  env_LookupHost env host = (a :: rest, None) →
  let r := run (ExchangeTKEY env host keyname algorithm mode lifetime input extra
                             tsigname tsigalgo tsigmac) in
  ∃ e c m tk,
    head (exchanges (trace r.2)) = Some e ∧
    ev_client e = Some c ∧ ev_sent e = Some m ∧
    Forall (λ e', ev_client e' = Some c) (exchanges (trace r.2)) ∧
    built_TKEY env keyname algorithm mode lifetime input extra = Some tk ∧
    (ToLower env algorithm = GSS →
       Client_TsigAlgorithm c = {[GSS := mkTsigAlgorithm None None]} ∧
       Client_TsigSecret c = {[keyname := ""]} ∧
       Msg_Extra m = RR_TKEY tk :: extra) ∧
    (ToLower env algorithm ≠ GSS →
     ∀ n al k, tsigname = Some n → tsigalgo = Some al → tsigmac = Some k →
       Client_TsigSecret c = {[n := k]} ∧
       Client_TsigSecret c !! n = Some k ∧
       Msg_Extra m =
         RR_TKEY tk :: extra ++
         [RR_TSIG (mkTSIG (mkRR_Header n TypeTSIG ClassANY 0 0) al
                          (uint64 (env_Now env 1)) 300 0 "" (env_Id env) 0 0 "")]) ∧
    (tsigname = None ∨ tsigalgo = None ∨ tsigmac = None →
       Msg_Extra m = RR_TKEY tk :: extra).
Proof.
  intros Hm Hl r. subst r.
  destruct (run_cases env host keyname algorithm mode lifetime input extra
              tsigname tsigalgo tsigmac)
    as [(Hn & _) | [(addrs & e & _ & Hl' & _)
                   | (addrs & evs & rr' & errs & _ & Hl' & _ & -> & _ & Hd)]];
    [done | congruence | ].
  assert (addrs = a :: rest) as -> by congruence.
  apply delivery_head in Hd as (e & He & Hc & _ & Hs & _ & _ & Hall).
  eexists e, _, _, _. split; [exact He|]. split; [exact Hc|]. split; [exact Hs|].
  split. { eapply Forall_impl; [exact Hall|]. by intros ? (? & _). }
  split. { by apply built_TKEY_supported. }
  unfold signing, initial_client.
  split; [|split].
  - intros Hg. destruct (decide (ToLower env algorithm = GSS)); [|done].
    destruct tsigname as [n|], tsigalgo as [al|], tsigmac as [k|]; try done.
    by destruct (decide (ToLower env algorithm ≠ GSS)).
  - intros Hg n al k -> -> ->.
    destruct (decide (ToLower env algorithm = GSS)); [done|].
    destruct (decide (ToLower env algorithm ≠ GSS)); [|done]. simpl.
    split; [done|]. split; [apply lookup_singleton_eq|done].
  - intros Habs.
    destruct tsigname as [n|], tsigalgo as [al|], tsigmac as [k|]; try done.
    destruct Habs as [?|[?|?]]; done.
Qed.

Lemma C4_signer_witness :
  let env := env_answering (sample_reply 0 [RR_TKEY (sample_TKEY 0)]) in
  let signed := run (ExchangeTKEY env "ns.example." "key.example." "hmac-sha256."
                       TkeyModeDH 3600 [xbe; xef] [sample_A]
                       (Some "tsig.example.") (Some "hmac-md5.sig-alg.reg.int.")
                       (Some "c2VjcmV0")) in
  let gss := run (ExchangeTKEY env "ns.example." "key.example." "GSS-TSIG."
                    TkeyModeGSS 3600 [xbe; xef] [sample_A]
                    (Some "tsig.example.") (Some "hmac-md5.sig-alg.reg.int.")
                    (Some "c2VjcmV0")) in
  (∃ e c m tk,
     head (exchanges (trace signed.2)) = Some e ∧
     ev_client e = Some c ∧ ev_sent e = Some m ∧
     built_TKEY env "key.example." "hmac-sha256." TkeyModeDH 3600 [xbe; xef] [sample_A]
       = Some tk ∧
     Client_TsigSecret c !! "tsig.example." = Some "c2VjcmV0" ∧
     Msg_Extra m =
       [RR_TKEY tk; sample_A;
        RR_TSIG (mkTSIG (mkRR_Header "tsig.example." TypeTSIG ClassANY 0 0)
                        "hmac-md5.sig-alg.reg.int." 1793404801 300 0 "" 4660 0 0 "")]) ∧
  (∃ e c m tk,
     head (exchanges (trace gss.2)) = Some e ∧
     ev_client e = Some c ∧ ev_sent e = Some m ∧
     built_TKEY env "key.example." "GSS-TSIG." TkeyModeGSS 3600 [xbe; xef] [sample_A]
       = Some tk ∧
     Client_TsigAlgorithm c = {[GSS := mkTsigAlgorithm None None]} ∧
     Client_TsigSecret c = {["key.example." := ""]} ∧
     Msg_Extra m = [RR_TKEY tk; sample_A]).
Proof.
  intros env signed gss. split.
  - destruct (C4_signer env "ns.example." "key.example." "hmac-sha256."
                TkeyModeDH 3600 [xbe; xef] [sample_A]
                (Some "tsig.example.") (Some "hmac-md5.sig-alg.reg.int.")
                (Some "c2VjcmV0") "192.0.2.1" [])
      as (e & c & m & tk & He & Hc & Hs & _ & Hb & _ & Hsig & _).
    { left. reflexivity. }
    { reflexivity. }
    exists e, c, m, tk.
    destruct (Hsig ltac:(by vm_compute) _ _ _ eq_refl eq_refl eq_refl) as (_ & Hk & Hx).
    repeat split; try done.
  - destruct (C4_signer env "ns.example." "key.example." "GSS-TSIG."
                TkeyModeGSS 3600 [xbe; xef] [sample_A]
                (Some "tsig.example.") (Some "hmac-md5.sig-alg.reg.int.")
                (Some "c2VjcmV0") "192.0.2.1" [])
      as (e & c & m & tk & He & Hc & Hs & _ & Hb & Hgss & _).
    { right. left. reflexivity. }
    { reflexivity. }
    exists e, c, m, tk.
    destruct (Hgss ltac:(by vm_compute)) as (Ha & Hk & Hx).
    repeat split; try done.
Defined.

(** ** Resolution and failover *)







(** C6, as the claim states it, fails: when resolution yields zero
    addresses and no error, the error returned is nil. *)
Lemma C6_counterexample :
  let r := run (ExchangeTKEY env_no_address "ns.example." "key.example."
                  "hmac-sha256." TkeyModeDH 3600 [xbe; xef] [] None None None) in
  env_LookupHost env_no_address "ns.example." = ([], None) ∧
  r.1 = (None, None, None) ∧
  ¬ (∃ e, r.1 = (None, None, Some e)).
Proof.
  split; [done|]. split; [by vm_compute|]. by intros (e & He).
Qed.

Lemma delivery_nil env c p first k0 rr0 errs0 evs rr errs :
  delivery env c p first k0 [] rr0 errs0 evs rr errs → evs = [].
Proof.
  intros (Hall & Haddr & _). rewrite take_nil in Haddr.
  destruct evs as [|e evs]; [done|]. exfalso.
  inversion Hall as [|? ? (He & _) _]; subst. by destruct e.
Qed.

(** The two ways resolution ends a run before any attempt. *)
Lemma run_resolution_early env host keyname algorithm mode lifetime input extra
      tsigname tsigalgo tsigmac :
  supported mode →
  let r := run (ExchangeTKEY env host keyname algorithm mode lifetime input extra
                             tsigname tsigalgo tsigmac) in
  (∀ addrs e, env_LookupHost env host = (addrs, Some e) →
     r.1 = (None, None, Some e) ∧ exchanges (trace r.2) = []) ∧
  (env_LookupHost env host = ([], None) →
     r.1 = (None, None, None) ∧ exchanges (trace r.2) = []).
Proof.
  intros Hm r. subst r. split.
  - intros addrs e Hl.
    by rewrite (run_resolution_error env _ _ _ _ _ _ _ _ _ _ addrs e Hm Hl).
  - intros Hl.
    destruct (run_cases env host keyname algorithm mode lifetime input extra
                tsigname tsigalgo tsigmac)
      as [(Hn & _) | [(addrs' & e & _ & Hl' & _)
                     | (addrs' & evs & rr' & errs & _ & Hl' & -> & -> & _ & Hd)]];
      [done | congruence | ].
    assert (addrs' = []) as -> by congruence.
    pose proof (delivery_nil _ _ _ _ _ _ _ _ _ _ Hd) as ->.
    destruct Hd as (_ & _ & _ & _ & [(_ & _ & -> & ->) | (evs0 & e & Hnil & _)]).
    + done.
    + by destruct evs0.
Qed.

(** C6, amended. When host resolution returns an error, the call fails
    with that error, a nil TKEY and nil records, and no transport
    attempt is made. When resolution yields zero addresses without an
    error, no transport attempt is made and the TKEY and the records
    returned are nil, with a nil error. *)
Theorem C6_resolution env host keyname algorithm mode lifetime input extra
        tsigname tsigalgo tsigmac :
  supported mode →
  let r := run (ExchangeTKEY env host keyname algorithm mode lifetime input extra
                             tsigname tsigalgo tsigmac) in
  (∀ addrs e, env_LookupHost env host = (addrs, Some e) →
     r.1 = (None, None, Some e) ∧ exchanges (trace r.2) = []) ∧
  (env_LookupHost env host = ([], None) →
     r.1 = (None, None, None) ∧ exchanges (trace r.2) = []).
Proof. apply run_resolution_early. Qed.

Lemma C6_resolution_witness :
  let r := run (ExchangeTKEY env_unresolved "ns.example." "key.example."
                  "hmac-sha256." TkeyModeDH 3600 [xbe; xef] [] None None None) in
  r.1 = (None, None, Some no_such_host) ∧ exchanges (trace r.2) = [].
Proof.
  intros r.
  destruct (C6_resolution env_unresolved "ns.example." "key.example."
              "hmac-sha256." TkeyModeDH 3600 [xbe; xef] [] None None None) as (He & _).
  { left. reflexivity. }
  apply (He [] no_such_host). reflexivity.
Defined.



(** ** The message object across attempts *)

Section Reuse.

Context (env : Env).

(** Every attempt of a run is handed the one message the builder
    allocated, and the clock is read at most twice in a run: once by
    the builder and at most once by the signer, however many attempts
    follow. *)
Lemma attempts_share_message host keyname algorithm mode lifetime input extra
      tsigname tsigalgo tsigmac :
  let r := run (ExchangeTKEY env host keyname algorithm mode lifetime input extra
                             tsigname tsigalgo tsigmac) in
  Forall (λ e, ev_loc e = Some 0%nat) (exchanges (trace r.2)) ∧
  (length (filter is_clock (trace r.2)) ≤ 2)%nat.
Proof.
  intros r. subst r.
  destruct (decide (supported mode)) as [Hm|Hm];
    [|rewrite run_unsupported by done; simpl; split; [constructor|lia]].
  destruct (env_LookupHost env host) as [addrs [e|]] eqn:Hl.
  { rewrite (run_resolution_error env _ _ _ _ _ _ _ _ _ _ addrs e Hm Hl).
    simpl. split; [constructor|lia]. }
  destruct (run_delivery env host keyname algorithm mode lifetime input extra
              tsigname tsigalgo tsigmac addrs Hm Hl)
    as (evs & rr & errs & hp & -> & Hd).
  cbn [snd trace].
  pose proof (delivery_exchanges _ _ _ _ _ _ _ _ _ _ _ Hd) as Hx.
  destruct Hd as (Hall & _). split.
  - rewrite !exchanges_app, exchanges_signing, Hx. simpl.
    eapply Forall_impl; [exact Hall|]. by intros ? (_ & _ & ? & _).
  - rewrite !filter_app, length_app, length_app.
    assert (Hc : filter is_clock evs = []).
    { clear Hx. induction Hall as [|e evs (He & _) _ IH]; [done|].
      rewrite filter_cons_False by (destruct e; try discriminate He; by intros ?).
      exact IH. }
    rewrite Hc.
    destruct (signing env algorithm tsigname tsigalgo tsigmac); simpl; lia.
Qed.

End Reuse.

(** C7 fails on the code. Every attempt is handed the same message
    object, and the signer runs once, before the loop. With two
    addresses, all three TSIG parameters given, and a first attempt that
    writes the message and then times out, the first attempt sends the
    TKEY record followed by the TSIG record, and the second attempt
    sends the same object, now without any TSIG record. *)
Theorem C7_message_reused :
  (∀ env host keyname algorithm mode lifetime input extra tsigname tsigalgo tsigmac,
     let r := run (ExchangeTKEY env host keyname algorithm mode lifetime input extra
                                tsigname tsigalgo tsigmac) in
     Forall (λ e, ev_loc e = Some 0%nat) (exchanges (trace r.2)) ∧
     (length (filter is_clock (trace r.2)) ≤ 2)%nat) ∧
  (let env := env_two_addresses
                (written_then_lost (sample_reply 0 [RR_TKEY (sample_TKEY 0)])) in
   let r := run (ExchangeTKEY env "ns.example." "key.example." "hmac-sha256."
                   TkeyModeDH 3600 [xbe; xef] []
                   (Some "tsig.example.") (Some "hmac-sha256.") (Some "c2VjcmV0")) in
   ∃ e1 e2 m1 m2 tk t,
     exchanges (trace r.2) = [e1; e2] ∧
     ev_reply e1 = None ∧ ev_err e1 = Some read_timeout ∧
     ev_loc e1 = Some 0%nat ∧ ev_loc e2 = Some 0%nat ∧
     ev_sent e1 = Some m1 ∧ Msg_Extra m1 = [RR_TKEY tk; RR_TSIG t] ∧
     ev_sent e2 = Some m2 ∧ Msg_Extra m2 = [RR_TKEY tk] ∧
     filter is_clock (trace r.2) = [EvNow sample_now; EvNow (sample_now + 1)]).
Proof.
  split; [intros; apply attempts_share_message|].
  do 6 eexists. by vm_compute.
Qed.

(** * Further properties of the routine *)

(** ** Results *)

Lemma validated_shape env rr :
  is_success (validated env rr) ∨ ∃ e, validated env rr = (None, None, Some e).
Proof.
  unfold validated, is_success.
  destruct (decide (Msg_Rcode rr ≠ RcodeSuccess)); [by eauto|].
  destruct (tkey_answers rr) as [|t [|t' l]]; [by eauto| |by eauto].
  destruct (decide (TKEY_Error t ≠ 0)); by eauto.
Qed.

(** X1. No partial success: every call returns either a TKEY record
    with a non-nil record slice and a nil error, or a nil TKEY with nil
    records; a TKEY never comes with an error, and records never come
    without a TKEY. *)
Theorem X1_no_partial_success env host keyname algorithm mode lifetime input extra
        tsigname tsigalgo tsigmac :
  let r := run (ExchangeTKEY env host keyname algorithm mode lifetime input extra
                             tsigname tsigalgo tsigmac) in
  is_success r.1 ∨ ∃ e, r.1 = (None, None, e).
Proof.
  intros r. subst r.
  destruct (run_cases env host keyname algorithm mode lifetime input extra
              tsigname tsigalgo tsigmac)
    as [(_ & -> & _) | [(addrs & e & _ & _ & -> & _)
                       | (addrs & evs & rr & errs & _ & _ & -> & _)]];
    [by eauto | by eauto | ].
  destruct rr as [m|]; [|by eauto].
  destruct (validated_shape env m) as [?|(e & ->)]; by eauto.
Qed.

Lemma single_TKEY_split (answer : list RR) t :
  omap as_TKEY answer = [t] →
  ∃ l1 l2, answer = l1 ++ RR_TKEY t :: l2 ∧
           filter (λ r, as_TKEY r = None) answer = l1 ++ l2 ∧
           Forall (λ r, as_TKEY r = None) (l1 ++ l2).
Proof.
  induction answer as [|a rest IH]; [done|].
  destruct a as [|t0|t0|h d]; simpl; intros Ho.
  - destruct (IH Ho) as (l1 & l2 & -> & Hf & Hall).
    exists (RR_nil :: l1), l2. rewrite filter_cons_True by done.
    rewrite Hf. repeat split; try done. by constructor.
  - injection Ho as -> Hrest. exists [], rest.
    rewrite filter_cons_False by (by intros ?).
    assert (Hall : Forall (λ r, as_TKEY r = None) rest).
    { clear IH. induction rest as [|b rest IH]; [done|].
      destruct b; try done; constructor; try done; by apply IH. }
    repeat split; try done.
    clear IH Hrest. induction Hall as [|b rest Hb _ IH]; [done|].
    rewrite filter_cons_True by done. by rewrite IH.
  - destruct (IH Ho) as (l1 & l2 & -> & Hf & Hall).
    exists (RR_TSIG t0 :: l1), l2. rewrite filter_cons_True by done.
    rewrite Hf. repeat split; try done. by constructor.
  - destruct (IH Ho) as (l1 & l2 & -> & Hf & Hall).
    exists (RR_Other h d :: l1), l2. rewrite filter_cons_True by done.
    rewrite Hf. repeat split; try done. by constructor.
Qed.

(** X3. On success no answer is lost: the answer section of the reply
    is the returned records with the returned TKEY record put back at
    one position, and none of the returned records is a TKEY record. *)
Theorem X3_answers_conserved env host keyname algorithm mode lifetime input extra
        tsigname tsigalgo tsigmac rr t records :
  let r := run (ExchangeTKEY env host keyname algorithm mode lifetime input extra
                             tsigname tsigalgo tsigmac) in
  received (trace r.2) = Some rr →
  r.1 = (Some t, Some records, None) →
  ∃ l1 l2, Msg_Answer rr = l1 ++ RR_TKEY t :: l2 ∧ records = l1 ++ l2 ∧
           Forall (λ x, as_TKEY x = None) records ∧
           length (Msg_Answer rr) = S (length records).
Proof.
  intros r Hrr. subst r.
  rewrite (run_received env _ _ _ _ _ _ _ _ _ _ rr Hrr).
  unfold validated, tkey_answers, other_answers.
  destruct (decide (Msg_Rcode rr ≠ RcodeSuccess)); [done|].
  destruct (omap as_TKEY (Msg_Answer rr)) as [|t0 [|t1 l]] eqn:Ho; [done| |done].
  destruct (decide (TKEY_Error t0 ≠ 0)); [done|].
  intros [= -> <-].
  destruct (single_TKEY_split _ _ Ho) as (l1 & l2 & Ha & Hf & Hall).
  exists l1, l2. rewrite Hf. repeat split; try done.
  rewrite Ha, !length_app. simpl. lia.
Qed.

Lemma X3_answers_conserved_witness :
  ∃ l1 l2,
    Msg_Answer (sample_reply 0 [sample_A; RR_TKEY (sample_TKEY 0)]) =
      l1 ++ RR_TKEY (sample_TKEY 0) :: l2 ∧
    [sample_A] = l1 ++ l2 ∧
    Forall (λ x, as_TKEY x = None) [sample_A] ∧
    length (Msg_Answer (sample_reply 0 [sample_A; RR_TKEY (sample_TKEY 0)])) =
      S (length [sample_A]).
Proof.
  apply (X3_answers_conserved
           (env_answering (sample_reply 0 [sample_A; RR_TKEY (sample_TKEY 0)]))
           "ns.example." "key.example." "hmac-sha256." TkeyModeDH 3600
           [xbe; xef] [] None None None).
  - by vm_compute.
  - by vm_compute.
Defined.

(** X4. Validation reads nothing of a reply but its status code and
    its answer section: two calls, whatever their arguments, that
    receive replies agreeing on these two return the same triple, as long
    as the table of code names is the same. *)
Theorem X4_validation_reads env1 env2
        host1 keyname1 algorithm1 mode1 lifetime1 input1 extra1 tn1 ta1 tm1
        host2 keyname2 algorithm2 mode2 lifetime2 input2 extra2 tn2 ta2 tm2
        rr1 rr2 :
  let r1 := run (ExchangeTKEY env1 host1 keyname1 algorithm1 mode1 lifetime1
                              input1 extra1 tn1 ta1 tm1) in
  let r2 := run (ExchangeTKEY env2 host2 keyname2 algorithm2 mode2 lifetime2
                              input2 extra2 tn2 ta2 tm2) in
  env_RcodeToString env1 = env_RcodeToString env2 →
  received (trace r1.2) = Some rr1 →
  received (trace r2.2) = Some rr2 →
  Msg_Rcode rr1 = Msg_Rcode rr2 →
  Msg_Answer rr1 = Msg_Answer rr2 →
  r1.1 = r2.1.
Proof.
  intros r1 r2 Ht H1 H2 Hc Ha. subst r1 r2.
  rewrite (run_received env1 _ _ _ _ _ _ _ _ _ _ rr1 H1).
  rewrite (run_received env2 _ _ _ _ _ _ _ _ _ _ rr2 H2).
  unfold validated, tkey_answers, other_answers, ServerError, TkeyProtocolError,
    rcode_name.
  by rewrite Ht, Hc, Ha.
Qed.

Lemma X4_validation_reads_witness :
  (run (ExchangeTKEY
          (env_answering (sample_reply 0 [sample_A; RR_TKEY (sample_TKEY 0)]))
          "ns.example." "key.example." "hmac-sha256." TkeyModeDH 3600
          [xbe; xef] [] None None None)).1 =
  (run (ExchangeTKEY
          (env_answering (mkMsg 7 true 0 [] [sample_A; RR_TKEY (sample_TKEY 0)]
                                [sample_A] [sample_A]))
          "other.example." "other-key.example." "gss-tsig." TkeyModeDelete 0
          [] [sample_A] (Some "a") (Some "b") (Some "c"))).1.
Proof.
  apply (X4_validation_reads _ _ _ _ _ _ _ _ _ _ _ _ _ _ _ _ _ _ _ _ _ _
           (sample_reply 0 [sample_A; RR_TKEY (sample_TKEY 0)])
           (mkMsg 7 true 0 [] [sample_A; RR_TKEY (sample_TKEY 0)]
                  [sample_A] [sample_A]));
    by vm_compute.
Defined.

(** X5. A code with no entry in the table of code names is reported
    with an empty name: the server error reads "DNS error:  (n)" and the
    TKEY protocol error "TKEY error:  (n)". *)
Theorem X5_unnamed_code env host keyname algorithm mode lifetime input extra
        tsigname tsigalgo tsigmac rr :
  let r := run (ExchangeTKEY env host keyname algorithm mode lifetime input extra
                             tsigname tsigalgo tsigmac) in
  received (trace r.2) = Some rr →
  (Msg_Rcode rr ≠ RcodeSuccess →
   env_RcodeToString env !! Msg_Rcode rr = None →
   r.1 = (None, None,
          Some (Errorf ("DNS error:  (" +:+ pretty (Msg_Rcode rr) +:+ ")")))) ∧
  (∀ t, Msg_Rcode rr = RcodeSuccess → tkey_answers rr = [t] →
        TKEY_Error t ≠ 0 →
        env_RcodeToString env !! TKEY_Error t = None →
        r.1 = (None, None,
               Some (Errorf ("TKEY error:  (" +:+ pretty (TKEY_Error t) +:+ ")")))).
Proof.
  intros r Hrr. subst r.
  rewrite (run_received env _ _ _ _ _ _ _ _ _ _ rr Hrr).
  unfold validated, ServerError, TkeyProtocolError, rcode_name. split.
  - intros Hc Hn. rewrite decide_True by done. by rewrite Hn.
  - intros t Hc -> He Hn. rewrite decide_False by (by intros ?).
    rewrite decide_True by done. by rewrite Hn.
Qed.

Lemma X5_unnamed_code_witness :
  (run (ExchangeTKEY (env_answering (sample_reply unnamed_code []))
          "ns.example." "key.example." "hmac-sha256." TkeyModeDH 3600
          [xbe; xef] [] None None None)).1 =
    (None, None, Some (Errorf "DNS error:  (3841)")) ∧
  (run (ExchangeTKEY
          (env_answering (sample_reply 0 [RR_TKEY (sample_TKEY unnamed_code)]))
          "ns.example." "key.example." "hmac-sha256." TkeyModeDH 3600
          [xbe; xef] [] None None None)).1 =
    (None, None, Some (Errorf "TKEY error:  (3841)")).
Proof.
  split.
  - destruct (X5_unnamed_code (env_answering (sample_reply unnamed_code []))
                "ns.example." "key.example." "hmac-sha256." TkeyModeDH 3600
                [xbe; xef] [] None None None (sample_reply unnamed_code []))
      as (Hs & _); [by vm_compute|].
    apply Hs; by vm_compute.
  - destruct (X5_unnamed_code
                (env_answering (sample_reply 0 [RR_TKEY (sample_TKEY unnamed_code)]))
                "ns.example." "key.example." "hmac-sha256." TkeyModeDH 3600
                [xbe; xef] [] None None None
                (sample_reply 0 [RR_TKEY (sample_TKEY unnamed_code)]))
      as (_ & Ht); [by vm_compute|].
    apply (Ht (sample_TKEY unnamed_code)); by vm_compute.
Defined.

(** ** The request *)

(** X2. The first message handed to the transport asks one question,
    for the TKEY type in class ANY under the key name, with recursion
    not desired and the identifier the library drew; its answer and
    authority sections are empty; its additional section starts with a
    TKEY record owned by the key name, of class ANY with TTL 0, carrying
    the caller's algorithm and mode verbatim and error code 0; the
    caller's extra records follow unchanged and in order, and after them
    comes at most one TSIG record, whose original identifier is the
    message identifier. The client speaks TCP. *)
Theorem X2_request_shape env host keyname algorithm mode lifetime input extra
        tsigname tsigalgo tsigmac e :
  let r := run (ExchangeTKEY env host keyname algorithm mode lifetime input extra
                             tsigname tsigalgo tsigmac) in
  head (exchanges (trace r.2)) = Some e →
  ∃ c m tk sig,
    ev_client e = Some c ∧ Net c = "tcp" ∧
    ev_sent e = Some m ∧
    Msg_Id m = env_Id env ∧ Msg_RecursionDesired m = false ∧
    Msg_Question m = [mkQuestion keyname TypeTKEY ClassANY] ∧
    Msg_Answer m = [] ∧ Msg_Ns m = [] ∧
    Msg_Extra m = RR_TKEY tk :: extra ++ sig ∧
    TKEY_Hdr tk = mkRR_Header keyname TypeTKEY ClassANY 0 0 ∧
    TKEY_Algorithm tk = algorithm ∧ TKEY_Mode tk = mode ∧ TKEY_Error tk = 0 ∧
    TKEY_OtherLen tk = 0 ∧ TKEY_OtherData tk = "" ∧
    (sig = [] ∨ ∃ t, sig = [RR_TSIG t] ∧ TSIG_OrigId t = Msg_Id m ∧
                     Hdr_Rrtype (TSIG_Hdr t) = TypeTSIG ∧
                     Hdr_Class (TSIG_Hdr t) = ClassANY ∧ TSIG_MAC t = "").
Proof.
  intros r. subst r.
  destruct (run_cases env host keyname algorithm mode lifetime input extra
              tsigname tsigalgo tsigmac)
    as [(_ & _ & ->) | [(addrs & x & _ & _ & _ & ->)
                       | (addrs & evs & rr' & errs & Hm & _ & _ & -> & _ & Hd)]];
    [done | done | ].
  intros He. destruct Hd as (Hall & _ & _ & Hfirst & _).
  destruct evs as [|e0 evs]; [done|]. injection He as ->.
  inversion Hall as [|? ? (_ & Hc & _) _]; subst.
  specialize (Hfirst e eq_refl).
  assert (Hnet : Net (signed_client (initial_client env keyname algorithm)
                        (signing env algorithm tsigname tsigalgo tsigmac)) = "tcp").
  { unfold initial_client.
    destruct (signing env algorithm tsigname tsigalgo tsigmac) as [[[n a] k]|];
      by destruct (decide (ToLower env algorithm = GSS)). }
  destruct (signing env algorithm tsigname tsigalgo tsigmac) as [[[n a] k]|].
  - eexists _, _, _, [RR_TSIG _].
    split; [exact Hc|]. split; [exact Hnet|]. split; [exact Hfirst|].
    simpl. repeat split; try done. right. by eexists.
  - eexists _, _, _, [].
    split; [exact Hc|]. split; [exact Hnet|]. split; [exact Hfirst|].
    simpl. rewrite app_nil_r. repeat split; try done. by left.
Qed.

Lemma X2_request_shape_witness :
  let env := env_answering (sample_reply 0 [RR_TKEY (sample_TKEY 0)]) in
  let r := run (ExchangeTKEY env "ns.example." "key.example." "hmac-sha256."
                  TkeyModeDH 3600 [xbe; xef] [sample_A]
                  (Some "tsig.example.") (Some "hmac-md5.sig-alg.reg.int.")
                  (Some "c2VjcmV0")) in
  ∃ e m, head (exchanges (trace r.2)) = Some e ∧ ev_sent e = Some m ∧
         Msg_Id m = 4660 ∧
         Msg_Question m = [mkQuestion "key.example." TypeTKEY ClassANY].
Proof.
  intros env r.
  destruct (head (exchanges (trace r.2))) as [e|] eqn:He;
    [|vm_compute in He; discriminate He].
  destruct (X2_request_shape env "ns.example." "key.example." "hmac-sha256."
              TkeyModeDH 3600 [xbe; xef] [sample_A]
              (Some "tsig.example.") (Some "hmac-md5.sig-alg.reg.int.")
              (Some "c2VjcmV0") e He)
    as (c & m & tk & sig & _ & _ & Hs & Hi & _ & Hq & _).
  by exists e, m.
Defined.

(** X11. In the Diffie-Hellman and GSS modes, for a 32-bit lifetime,
    the built record's expiration is not before its inception exactly
    when uint32(now) + lifetime stays below 2^32. *)
Theorem X11_expiration_order env keyname algorithm mode lifetime input extra :
  mode = TkeyModeDH ∨ mode = TkeyModeGSS →
  0 ≤ lifetime < 2 ^ 32 →
  ∃ tk, built_TKEY env keyname algorithm mode lifetime input extra = Some tk ∧
    (TKEY_Inception tk ≤ TKEY_Expiration tk ↔
     uint32 (env_Now env 0) + lifetime < 2 ^ 32).
Proof.
  intros Hm Hl. eexists. split.
  { apply built_TKEY_supported. unfold supported. tauto. }
  unfold timestamps.
  rewrite decide_False by (unfold TkeyModeDelete, TkeyModeDH, TkeyModeGSS in *; lia).
  cbn [fst snd TKEY_Inception TKEY_Expiration request_TKEY].
  unfold uint32 in *. change (2 ^ 32) with 4294967296 in *.
  set (n := env_Now env 0 mod 4294967296) in *.
  assert (Hn : 0 ≤ n < 4294967296) by (apply Z.mod_pos_bound; lia).
  split.
  - intros Hle.
    destruct (Z_lt_ge_dec (n + lifetime) 4294967296) as [|Hge]; [done|].
    assert (He : (n + lifetime) mod 4294967296 = n + lifetime - 4294967296).
    { symmetry. apply (Z.mod_unique_pos _ _ 1); lia. }
    rewrite He in Hle. lia.
  - intros Hlt. rewrite Z.mod_small by lia. lia.
Qed.

Lemma X11_expiration_order_witness :
  ∃ tk, built_TKEY env_wrap "key.example." "gss-tsig." TkeyModeGSS 3600 [] []
        = Some tk ∧
    (TKEY_Inception tk ≤ TKEY_Expiration tk ↔
     uint32 (env_Now env_wrap 0) + 3600 < 2 ^ 32).
Proof.
  apply (X11_expiration_order env_wrap "key.example." "gss-tsig." TkeyModeGSS
           3600 [] []).
  - right. reflexivity.
  - by vm_compute.
Defined.

(** ** Arguments that do not matter *)

Lemma sign_request_skips env c p algorithm tsigname tsigalgo tsigmac s :
  ToLower env algorithm = GSS ∨ tsigname = None ∨ tsigalgo = None ∨ tsigmac = None →
  sign_request env c p algorithm tsigname tsigalgo tsigmac s = (inr c, s).
Proof.
  intros H. unfold sign_request.
  destruct tsigname as [n|], tsigalgo as [a|], tsigmac as [k|]; try done.
  destruct (decide (ToLower env algorithm ≠ GSS)) as [Hg|_]; [|done].
  destruct H as [?|[?|[?|?]]]; done.
Qed.

(** X6. TSIG parameters that do not lead to signing leave no trace:
    when the algorithm is the GSS name up to case, or one of the three
    TSIG parameters is absent, the call returns the same triple, makes
    the same calls and leaves the same store as the call with all three
    absent. *)
Theorem X6_unused_tsig_parameters env host keyname algorithm mode lifetime input
        extra tsigname tsigalgo tsigmac :
  ToLower env algorithm = GSS ∨ tsigname = None ∨ tsigalgo = None ∨ tsigmac = None →
  run (ExchangeTKEY env host keyname algorithm mode lifetime input extra
                    tsigname tsigalgo tsigmac) =
  run (ExchangeTKEY env host keyname algorithm mode lifetime input extra
                    None None None).
Proof.
  intros H. unfold run, ExchangeTKEY, mbind, M_bind.
  destruct (build_request env keyname algorithm mode lifetime input extra init_state)
    as [[r|p] s]; [done|].
  destruct (LookupHost env host s) as [[r|[addrs [e|]]] s1]; [done|done|].
  rewrite sign_request_skips by done.
  by rewrite sign_request_skips by auto.
Qed.

Lemma X6_unused_tsig_parameters_witness :
  let env := env_answering (sample_reply 0 [RR_TKEY (sample_TKEY 0)]) in
  run (ExchangeTKEY env "ns.example." "key.example." "GSS-TSIG." TkeyModeGSS 3600
         [xbe; xef] [] (Some "tsig.example.") (Some "hmac-sha256.") (Some "c2VjcmV0")) =
  run (ExchangeTKEY env "ns.example." "key.example." "GSS-TSIG." TkeyModeGSS 3600
         [xbe; xef] [] None None None) ∧
  run (ExchangeTKEY env "ns.example." "key.example." "hmac-sha256." TkeyModeDH 3600
         [xbe; xef] [] (Some "tsig.example.") None (Some "c2VjcmV0")) =
  run (ExchangeTKEY env "ns.example." "key.example." "hmac-sha256." TkeyModeDH 3600
         [xbe; xef] [] None None None).
Proof.
  intros env. split.
  - apply X6_unused_tsig_parameters. left. by vm_compute.
  - apply X6_unused_tsig_parameters. right. right. left. reflexivity.
Defined.

(** X7. In Delete mode the lifetime is ignored altogether: two calls
    that differ only in the lifetime return the same triple, make the
    same calls with the same messages and leave the same store. *)
Theorem X7_delete_ignores_lifetime env host keyname algorithm lifetime1 lifetime2
        input extra tsigname tsigalgo tsigmac :
  run (ExchangeTKEY env host keyname algorithm TkeyModeDelete lifetime1 input extra
                    tsigname tsigalgo tsigmac) =
  run (ExchangeTKEY env host keyname algorithm TkeyModeDelete lifetime2 input extra
                    tsigname tsigalgo tsigmac).
Proof.
  unfold run, ExchangeTKEY, mbind, M_bind.
  rewrite !build_request_supported by (right; right; reflexivity).
  unfold timestamps. by rewrite !decide_True by reflexivity.
Qed.

(** ** Calls of the collaborators *)

Lemma exchange_addresses evs :
  Forall (λ e, is_exchange e = true) evs → length (omap ev_addr evs) = length evs.
Proof.
  induction 1 as [|e evs He _ IH]; [done|].
  destruct e; try discriminate He. simpl. f_equal. exact IH.
Qed.

(** X8. A call never makes more transport attempts than resolution
    returned addresses and never goes back to an address: the attempts
    go, in order, to the leading addresses of the resolved list, each
    joined with port 53, and every attempt uses a TCP client. *)
Theorem X8_attempts_bounded env host keyname algorithm mode lifetime input extra
        tsigname tsigalgo tsigmac :
  let r := run (ExchangeTKEY env host keyname algorithm mode lifetime input extra
                             tsigname tsigalgo tsigmac) in
  let evs := exchanges (trace r.2) in
  let addrs := (env_LookupHost env host).1 in
  (length evs ≤ length addrs)%nat ∧
  omap ev_addr evs = (λ a, net_JoinHostPort a "53") <$> take (length evs) addrs ∧
  omap ev_index evs = seq 0 (length evs) ∧
  Forall (λ e, ∃ c, ev_client e = Some c ∧ Net c = "tcp") evs.
Proof.
  intros r evs addrs. subst r evs addrs.
  destruct (run_cases env host keyname algorithm mode lifetime input extra
              tsigname tsigalgo tsigmac)
    as [(_ & _ & ->) | [(addrs & x & _ & _ & _ & ->)
                       | (addrs & evs & rr' & errs & Hm & -> & _ & -> & _ & Hd)]].
  - simpl. repeat split; try done. lia.
  - simpl. repeat split; try done. lia.
  - cbn [fst]. destruct Hd as (Hall & Haddr & Hidx & _).
    assert (Hx : Forall (λ e, is_exchange e = true) evs).
    { eapply Forall_impl; [exact Hall|]. by intros e (? & _). }
    split; [|split; [done|split; [done|]]].
    + pose proof (exchange_addresses evs Hx) as Hlen.
      rewrite Haddr, length_fmap, length_take in Hlen. lia.
    + eapply Forall_impl; [exact Hall|]. intros e (_ & Hc & _).
      eexists. split; [exact Hc|]. unfold initial_client.
      destruct (signing env algorithm tsigname tsigalgo tsigmac) as [[[n a] k]|];
        by destruct (decide (ToLower env algorithm = GSS)).
Qed.

(** X10. The order of the calls a run makes: first the identifier is
    drawn and the clock is read, once each; an unsupported mode ends
    the log there; otherwise resolution is called exactly once, with the
    host given; after it the clock is read at most once more, for the
    signature; the transport attempts come last. When resolution
    reports an error nothing follows it. *)
Theorem X10_order_of_calls env host keyname algorithm mode lifetime input extra
        tsigname tsigalgo tsigmac :
  let r := run (ExchangeTKEY env host keyname algorithm mode lifetime input extra
                             tsigname tsigalgo tsigmac) in
  let look := env_LookupHost env host in
  ∃ tail,
    trace r.2 = EvId (env_Id env) :: EvNow (env_Now env 0) :: tail ∧
    ((¬ supported mode ∧ tail = []) ∨
     (supported mode ∧
      ∃ sgn, tail = EvLookupHost host look.1 look.2 :: sgn ++ exchanges (trace r.2) ∧
             (sgn = [] ∨ sgn = [EvNow (env_Now env 1)]) ∧
             (look.2 ≠ None → sgn = [] ∧ exchanges (trace r.2) = []))).
Proof.
  intros r look. subst r look.
  destruct (decide (supported mode)) as [Hm|Hm];
    [|rewrite run_unsupported by done; eexists; split; [done|by left]].
  destruct (env_LookupHost env host) as [addrs [e|]] eqn:Hl.
  { rewrite (run_resolution_error env _ _ _ _ _ _ _ _ _ _ addrs e Hm Hl).
    eexists. split; [done|]. right. split; [done|]. exists [].
    split; [done|]. split; [by left|done]. }
  destruct (run_delivery env host keyname algorithm mode lifetime input extra
              tsigname tsigalgo tsigmac addrs Hm Hl)
    as (evs & rr & errs & hp & -> & Hd).
  cbn [fst snd trace].
  pose proof (delivery_exchanges _ _ _ _ _ _ _ _ _ _ _ Hd) as Hx.
  eexists. split; [done|]. right. split; [done|].
  exists (signing_events env (signing env algorithm tsigname tsigalgo tsigmac)).
  split; [|split; [|done]].
  - rewrite !exchanges_app, exchanges_signing, Hx. done.
  - destruct (signing env algorithm tsigname tsigalgo tsigmac); by eauto.
Qed.

(** ** The message from one attempt to the next *)

Section Threading.

Context (env : Env).

Lemma attempt_loop_threaded c p addrs : ∀ rr0 errs0 s res s',
  (p < length (heap s))%nat →
  attempt_loop env c p addrs rr0 errs0 s = (res, s') →
  ∃ evs, trace s' = trace s ++ evs ∧
         Forall (λ e, is_exchange e = true) evs ∧
         threaded env evs ∧
         (∀ e, head evs = Some e → ev_sent e = Some (heap s !!! p)).
Proof.
  induction addrs as [|a rest IH]; intros rr0 errs0 s res s' Hp.
  - simpl. unfold_M. intros [= <- <-]. exists []. by rewrite app_nil_r.
  - simpl. unfold_M.
    destruct (env_Exchange env (attempts s) c (heap s !!! p) (net_JoinHostPort a "53"))
      as [m' r x] eqn:Ho; simpl.
    set (e := EvExchange (attempts s) c p (heap s !!! p) (net_JoinHostPort a "53") r x).
    destruct x as [x|]; [destruct r as [r|]|].
    + rewrite bool_decide_eq_true_2 by done. intros [= <- <-].
      exists [e]. repeat split; try done; [by constructor|by intros ? [= <-]].
    + rewrite bool_decide_eq_false_2 by (intros H; by apply H).
      intros Hloop. apply IH in Hloop as (evs & Htr & Hall & Hth & Hfirst);
        [|simpl; by rewrite length_insert].
      simpl in *. exists (e :: evs). split; [by rewrite Htr, <- app_assoc|].
      split; [by constructor|]. split; [|by intros ? [= <-]].
      destruct evs as [|e' evs]; [done|]. split; [|done].
      subst e. cbn [threaded]. rewrite Ho. simpl.
      rewrite (Hfirst e' eq_refl). f_equal.
      by apply list_lookup_total_insert_eq.
    + intros [= <- <-].
      exists [e]. repeat split; try done; [by constructor|by intros ? [= <-]].
Qed.

Lemma threaded_preserved evs m :
  preserves_message env →
  Forall (λ e, is_exchange e = true) evs →
  threaded env evs →
  (∀ e, head evs = Some e → ev_sent e = Some m) →
  Forall (λ e, ev_sent e = Some m) evs.
Proof.
  intros Hp Hall. revert m.
  induction Hall as [|e evs He _ IH]; intros m Hth Hfirst; [done|].
  pose proof (Hfirst e eq_refl) as Hs. constructor; [done|].
  destruct evs as [|e' evs]; [done|].
  destruct e as [| | |k c p m0 a r x]; try done.
  destruct Hth as (Hnext & Hth). rewrite Hp in Hnext.
  simpl in Hs. injection Hs as ->.
  apply IH; [done|]. by intros ? [= <-].
Qed.

Lemma run_threaded host keyname algorithm mode lifetime input extra
      tsigname tsigalgo tsigmac :
  threaded env
    (exchanges (trace (run (ExchangeTKEY env host keyname algorithm mode lifetime
                              input extra tsigname tsigalgo tsigmac)).2)).
Proof.
  destruct (decide (supported mode)) as [Hm|Hm];
    [|by rewrite run_unsupported by done].
  destruct (env_LookupHost env host) as [addrs [e|]] eqn:Hl.
  { by rewrite (run_resolution_error env _ _ _ _ _ _ _ _ _ _ addrs e Hm Hl). }
  unfold run, ExchangeTKEY, mbind, M_bind.
  rewrite build_request_supported by done.
  unfold LookupHost, log. rewrite Hl. simpl.
  rewrite sign_request_spec.
  match goal with |- context [attempt_loop env ?c ?p ?a ?r ?x ?s] =>
    destruct (attempt_loop env c p a r x s) as [res s'] eqn:Hloop;
    apply attempt_loop_threaded in Hloop as (evs & Htr & Hall & Hth & _);
      [|simpl; lia]
  end.
  assert (Hfinal : ∀ (k : option Msg * option error → M Result),
            (∀ v s, trace (k v s).2 = trace s) →
            trace (let (s0, s) := match res with
                                  | inl r => (inl r, s')
                                  | inr a => k a s'
                                  end in
                   match s0 with inl r | inr r => (r, s) end).2 = trace s').
  { intros k Hk. destruct res as [r|v]; [done|].
    specialize (Hk v s'). by destruct (k v s') as [[?|?] ?]. }
  rewrite Hfinal.
  - rewrite Htr. cbn [trace]. rewrite !exchanges_app, exchanges_signing. simpl.
    by rewrite exchanges_all.
  - intros [[m|] errs] s; [by rewrite validate_spec|done].
Qed.

End Threading.

(** X9. The attempts of a run share one message: each attempt after
    the first is handed the message exactly as the transport left it at
    the attempt before. Hence with a transport that does not touch the
    message every attempt sends what the first one sent, the TSIG
    record and its signing time included. *)
Theorem X9_message_threaded env host keyname algorithm mode lifetime input extra
        tsigname tsigalgo tsigmac :
  let r := run (ExchangeTKEY env host keyname algorithm mode lifetime input extra
                             tsigname tsigalgo tsigmac) in
  threaded env (exchanges (trace r.2)) ∧
  (preserves_message env →
   ∀ e m, head (exchanges (trace r.2)) = Some e → ev_sent e = Some m →
          Forall (λ e', ev_sent e' = Some m) (exchanges (trace r.2))).
Proof.
  intros r. subst r. split; [apply run_threaded|].
  intros Hp e m He Hs.
  apply (threaded_preserved env); [done| |apply run_threaded|].
  - unfold exchanges. apply Forall_forall. intros x Hx.
    apply list_elem_of_filter in Hx as (Hx & _). by destruct (is_exchange x).
  - intros e' He'. congruence.
Qed.

Lemma X9_message_threaded_witness :
  let env := env_three_addresses
               (third_answers (sample_reply 0 [RR_TKEY (sample_TKEY 0)])) in
  let r := run (ExchangeTKEY env "ns.example." "key.example." "hmac-sha256."
                  TkeyModeDH 3600 [xbe; xef] []
                  (Some "tsig.example.") (Some "hmac-sha256.") (Some "c2VjcmV0")) in
  ∃ m, length (exchanges (trace r.2)) = 3%nat ∧
       Forall (λ e', ev_sent e' = Some m) (exchanges (trace r.2)).
Proof.
  intros env r.
  destruct (X9_message_threaded env "ns.example." "key.example." "hmac-sha256."
              TkeyModeDH 3600 [xbe; xef] []
              (Some "tsig.example.") (Some "hmac-sha256.") (Some "c2VjcmV0"))
    as (_ & Hsame).
  assert (Hp : preserves_message env)
    by (intros k c m a; by destruct k as [|[|k]]).
  destruct (head (exchanges (trace r.2))) as [e|] eqn:He;
    [|vm_compute in He; discriminate He].
  destruct (ev_sent e) as [m|] eqn:Hs.
  - exists m. split; [by vm_compute|]. exact (Hsame Hp e m He Hs).
  - exfalso. pose proof He as He'. vm_compute in He'.
    injection He' as <-. discriminate Hs.
Defined.
